(** * memory-mongo: the MCP protocol adapter of [src/memory-mongo/index.ts]

    A shallow embedding of the knowledge-graph MCP server: the start-up
    configuration, the remote client ([KnowledgeGraphManager]), the tool
    registry and the call-tool request handler, together with the fragment
    of the JavaScript runtime these rely on (truthiness, string conversion,
    property access, [encodeURIComponent], [JSON.stringify]).

    The external graph service is an oracle [request -> net_result]; every
    operation threads a log of the requests it issued, so that "one network
    call, with these headers" is a statement about the code and not about
    the model. *)

From Stdlib Require Import String Ascii List ZArith Bool Lia.
From stdpp Require Import base option gmap strings pretty.
Import ListNotations.

Set Warnings "-register-all".

Local Open Scope string_scope.
Local Open Scope list_scope.

(** ** The JavaScript fragment *)

Module JS.

(** Numbers.  A finite non-zero number is held as the decimal that
    Number::toString works from: a sign, the digits [s] and the position
    [n] of the decimal point, standing for 0.[s] x 10^[n].  For a double
    these are the shortest digits that read back as that double, and
    trailing zeros of [s] do not count.  Every double has such a form;
    nothing in the adapter computes with numbers, it only tests them for
    truthiness and prints them. *)
Inductive number :=
| NZero
| NNegZero
| NNaN
| NInfinity (negative : bool)
| NFinite (negative : bool) (digits : positive) (point : Z).

(** The number whose digits spell the integer [z], the point after the
    last of them; [NInt 0] is [+0].  Below 2^53 in magnitude that is the
    integer [z] itself; a larger integer double is held by its shortest
    digits like any other (2^60 by 1152921504606847 and point 19). *)
Definition NInt (z : Z) : number :=
  match z with
  | Z0 => NZero
  | Zpos p => NFinite false p (Z.of_nat (String.length (pretty (N.pos p))))
  | Zneg p => NFinite true p (Z.of_nat (String.length (pretty (N.pos p))))
  end.

(** Values that reach the adapter: whatever [JSON.parse] can build, plus
    [undefined].  Strings are held as their UTF-8 bytes.  An object is its
    own properties in enumeration order. *)
Inductive value :=
| VUndefined
| VNull
| VBool (b : bool)
| VNum (n : number)
| VStr (s : string)
| VArr (items : list value)
| VObj (props : list (string * value)).

Definition obj := list (string * value).

(** What a [throw] can carry: an [AxiosError] (with the body of the
    response when the service answered), any other [Error] instance, or a
    value that is not an [Error]. *)
Inductive thrown :=
| AxiosError (response : option value) (message : string)
| Error (message : string)
| NonError (v : value).

(** Completion of an evaluation: normal or abrupt. *)
Inductive outcome (A : Type) :=
| Returned (a : A)
| Threw (e : thrown).
Arguments Returned {A} a.
Arguments Threw {A} e.

Definition obind {A B} (o : outcome A) (k : A -> outcome B) : outcome B :=
  match o with
  | Returned a => k a
  | Threw e => Threw e
  end.

(** [error instanceof Error] *)
Definition instanceof_Error (e : thrown) : bool :=
  match e with
  | AxiosError _ _ | Error _ => true
  | NonError _ => false
  end.

(** [axios.isAxiosError(error)] *)
Definition isAxiosError (e : thrown) : bool :=
  match e with
  | AxiosError _ _ => true
  | _ => false
  end.

(** [error.message] of an [Error] instance *)
Definition message_of (e : thrown) : string :=
  match e with
  | AxiosError _ m | Error m => m
  | NonError _ => ""
  end.

(** ToBoolean *)
Definition truthy_number (n : number) : bool :=
  match n with
  | NZero | NNegZero | NNaN => false
  | NInfinity _ | NFinite _ _ _ => true
  end.

Definition truthy_string (s : string) : bool :=
  match s with
  | EmptyString => false
  | String _ _ => true
  end.

Definition truthy (v : value) : bool :=
  match v with
  | VUndefined | VNull => false
  | VBool b => b
  | VNum n => truthy_number n
  | VStr s => truthy_string s
  | VArr _ | VObj _ => true
  end.

(** [a || b] on values *)
Definition or_else (a b : value) : value := if truthy a then a else b.

(** The digits without their trailing zeros. *)
Fixpoint strip_zeros (s : string) : string :=
  match s with
  | EmptyString => EmptyString
  | String c rest =>
      match strip_zeros rest with
      | EmptyString => if Ascii.eqb c "0" then EmptyString else String c EmptyString
      | kept => String c kept
      end
  end.

Fixpoint zeros (m : nat) : string :=
  match m with
  | O => EmptyString
  | S m' => String "0" (zeros m')
  end.

(** Steps 6 to 14 of Number::toString for radix 10, on the [k] digits [s]
    and the point [n]: plain digits padded with zeros when [k <= n <= 21],
    a point inside the digits when [0 < n <= 21], leading zeros when
    [-6 < n <= 0], and otherwise the exponent form, with the exponent
    [n - 1] always signed. *)
Definition decimal_form (s : string) (n : Z) : string :=
  let k := Z.of_nat (String.length s) in
  if ((k <=? n) && (n <=? 21))%Z then
    s +:+ zeros (Z.to_nat (n - k))
  else if ((0 <? n) && (n <=? 21))%Z then
    substring 0 (Z.to_nat n) s +:+ "." +:+ substring (Z.to_nat n) (Z.to_nat (k - n)) s
  else if ((-6 <? n) && (n <=? 0))%Z then
    "0." +:+ zeros (Z.to_nat (- n)) +:+ s
  else
    let e := (n - 1)%Z in
    let mantissa :=
      match s with
      | String d (String d' rest) => String d ("." +:+ String d' rest)
      | _ => s
      end in
    mantissa +:+ "e" +:+ (if (e <? 0)%Z then "-" else "+") +:+ pretty (Z.abs e).

(** Number::toString, radix 10. *)
Definition number_to_string (n : number) : string :=
  match n with
  | NZero | NNegZero => "0"
  | NNaN => "NaN"
  | NInfinity false => "Infinity"
  | NInfinity true => "-Infinity"
  | NFinite negative digits point =>
      (if negative then "-" else "")
      +:+ decimal_form (strip_zeros (pretty (N.pos digits))) point
  end.

Fixpoint lookup_prop (k : string) (o : obj) : option value :=
  match o with
  | [] => None
  | (k', v) :: rest => if String.eqb k k' then Some v else lookup_prop k rest
  end.

Definition has_own (k : string) (o : obj) : bool :=
  match lookup_prop k o with
  | Some _ => true
  | None => false
  end.

(** V8's wording of the two TypeErrors the adapter can run into. *)
Definition cannot_convert : thrown :=
  Error "Cannot convert object to primitive value".

Definition cannot_read (base key : string) : thrown :=
  Error ("Cannot read properties of " +:+ base +:+ " (reading '" +:+ key +:+ "')").

(** ToString.  An array goes through [Array.prototype.join]; a plain object
    prints as [[object Object]] unless an own [toString] property (never
    callable in a parsed value) shadows the inherited method, in which case
    the conversion to a primitive fails. *)
Fixpoint join_comma (parts : list (outcome string)) : outcome string :=
  match parts with
  | [] => Returned ""
  | [p] => p
  | p :: rest =>
      obind p (fun s =>
      obind (join_comma rest) (fun r => Returned (s +:+ "," +:+ r)))
  end.

Fixpoint ToString (v : value) : outcome string :=
  match v with
  | VUndefined => Returned "undefined"
  | VNull => Returned "null"
  | VBool true => Returned "true"
  | VBool false => Returned "false"
  | VNum n => Returned (number_to_string n)
  | VStr s => Returned s
  | VArr items =>
      join_comma
        (List.map (fun x => match x with
                            | VUndefined | VNull => Returned ""
                            | _ => ToString x
                            end) items)
  | VObj props =>
      if has_own "toString" props then Threw cannot_convert
      else Returned "[object Object]"
  end.

(** [new Error(v)]: the message is [ToString v] unless [v] is [undefined]. *)
Definition new_Error (v : value) : thrown :=
  match v with
  | VUndefined => Error ""
  | _ => match ToString v with
         | Returned m => Error m
         | Threw e => e
         end
  end.

(** [v.k] for a key that no built-in prototype defines and that is neither
    an index nor [length] (every key the adapter reads is of that kind). *)
Definition get (v : value) (k : string) : outcome value :=
  match v with
  | VUndefined => Threw (cannot_read "undefined" k)
  | VNull => Threw (cannot_read "null" k)
  | VObj props => Returned (default VUndefined (lookup_prop k props))
  | _ => Returned VUndefined
  end.

(** [v?.k] *)
Definition get_opt (v : value) (k : string) : outcome value :=
  match v with
  | VUndefined | VNull => Returned VUndefined
  | _ => get v k
  end.

(** *** [encodeURIComponent] *)

Definition hex_upper : list ascii := list_ascii_of_string "0123456789ABCDEF".
Definition hex_lower : list ascii := list_ascii_of_string "0123456789abcdef".

Definition hex2 (digits : list ascii) (n : nat) : string :=
  String (nth (n / 16) digits "0"%char)
    (String (nth (n mod 16) digits "0"%char) EmptyString).

Definition between (lo hi n : nat) : bool := (lo <=? n)%nat && (n <=? hi)%nat.

(** uriUnescaped: the alphanumerics and the marks [- _ . ! ~ * ' ( )] *)
Definition uri_unescaped (c : ascii) : bool :=
  let n := nat_of_ascii c in
  between 48 57 n || between 65 90 n || between 97 122 n
  || existsb (Ascii.eqb c) (list_ascii_of_string "-_.!~*'()").

(** Every other byte of the UTF-8 form is written [%XX], upper-case hex.
    (A string with a lone surrogate has no UTF-8 form; on such a string the
    built-in throws a [URIError], which is an [Error] like the others.) *)
Fixpoint encode_bytes (s : string) : string :=
  match s with
  | EmptyString => EmptyString
  | String c rest =>
      if uri_unescaped c then String c (encode_bytes rest)
      else "%" +:+ hex2 hex_upper (nat_of_ascii c) +:+ encode_bytes rest
  end.

Definition encodeURIComponent (v : value) : outcome string :=
  obind (ToString v) (fun s => Returned (encode_bytes s)).

(** *** [JSON.stringify(v, null, 2)] *)

(** QuoteJSONString *)
Definition quote_char (c : ascii) : string :=
  let n := nat_of_ascii c in
  if (n =? 8)%nat then "\b"
  else if (n =? 9)%nat then "\t"
  else if (n =? 10)%nat then "\n"
  else if (n =? 12)%nat then "\f"
  else if (n =? 13)%nat then "\r"
  else if (n =? 34)%nat then "\" +:+ String c EmptyString
  else if (n =? 92)%nat then "\\"
  else if (n <? 32)%nat then "\u00" +:+ hex2 hex_lower n
  else String c EmptyString.

Fixpoint quote_body (s : string) : string :=
  match s with
  | EmptyString => EmptyString
  | String c rest => quote_char c +:+ quote_body rest
  end.

Definition dquote : string := String (ascii_of_nat 34) EmptyString.
Definition newline : string := String (ascii_of_nat 10) EmptyString.

Definition quote (s : string) : string := dquote +:+ quote_body s +:+ dquote.

Definition gap : string := "  ".

Fixpoint join_with (sep : string) (parts : list string) : string :=
  match parts with
  | [] => ""
  | [p] => p
  | p :: rest => p +:+ sep +:+ join_with sep rest
  end.

(** A non-empty array or object is laid out one member per line. *)
Definition wrap (opening closing stepback : string) (parts : list string) : string :=
  match parts with
  | [] => opening +:+ closing
  | _ =>
      let indent := stepback +:+ gap in
      opening +:+ newline +:+ indent
      +:+ join_with ("," +:+ newline +:+ indent) parts
      +:+ newline +:+ stepback +:+ closing
  end.

(** SerializeJSONProperty at indentation [stepback]; [None] is
    [undefined].  Array holes print [null]; object members whose value
    serializes to [undefined] are left out. *)
Fixpoint serialize (stepback : string) (v : value) : option string :=
  match v with
  | VUndefined => None
  | VNull => Some "null"
  | VBool true => Some "true"
  | VBool false => Some "false"
  | VNum NNaN | VNum (NInfinity _) => Some "null"
  | VNum n => Some (number_to_string n)
  | VStr s => Some (quote s)
  | VArr items =>
      Some (wrap "[" "]" stepback
              (List.map (fun x => default "null" (serialize (stepback +:+ gap) x))
                 items))
  | VObj props =>
      Some (wrap "{" "}" stepback
              (List.flat_map
                 (fun kv : string * value =>
                    match serialize (stepback +:+ gap) (snd kv) with
                    | Some s => [quote (fst kv) +:+ ": " +:+ s]
                    | None => []
                    end)
                 props))
  end.

Definition JSON_stringify (v : value) : option string := serialize "" v.

End JS.

Import JS.

(** ** Start-up configuration (module top level) *)

Record config := {
  API_KEY : string;
  API_BASE_URL : string
}.

Definition default_base_url : string := "http://localhost:3000".

Definition key_required : thrown :=
  Error "MEMORY_API_KEY environment variable is required".

(** The first statements of the module.  [process.env.X] is a string, or
    [undefined] when the variable is not set; both [||] and [!] test it
    for truthiness, and the empty string is falsy. *)
Definition load_config (env : gmap string string) : outcome config :=
  let key := env !! "MEMORY_API_KEY" in
  let base :=
    match env !! "MEMORY_API_URL" with
    | Some url => if truthy_string url then url else default_base_url
    | None => default_base_url
    end in
  match key with
  | Some k =>
      if negb (truthy_string k) then Threw key_required
      else Returned {| API_KEY := k; API_BASE_URL := base |}
  | None => Threw key_required
  end.

(** ** The HTTP client *)

Inductive http_method := GET | POST | DELETE.

Record AxiosInstance := {
  baseURL : string;
  headers : list (string * string)
}.

Record request := {
  req_method : http_method;
  req_baseURL : string;
  req_headers : list (string * string);
  req_url : string;
  req_data : option value
}.

(** What the service does with a request: the promise is fulfilled with a
    response whose [data] is the parsed body, or rejected. *)
Inductive net_result :=
| Fulfilled (data : value)
| Rejected (e : thrown).

(** ** Computations that may throw and that issue requests *)

Definition io (A : Type) : Type := list request -> outcome A * list request.

Definition ret {A} (a : A) : io A := fun log => (Returned a, log).

Definition throw {A} (e : thrown) : io A := fun log => (Threw e, log).

Definition bind {A B} (c : io A) (k : A -> io B) : io B :=
  fun log =>
    match c log with
    | (Returned a, log') => k a log'
    | (Threw e, log') => (Threw e, log')
    end.

Definition lift {A} (o : outcome A) : io A := fun log => (o, log).

(** [try { body } catch (error) { handler }] *)
Definition try_catch {A} (body : io A) (handler : thrown -> io A) : io A :=
  fun log =>
    match body log with
    | (Returned a, log') => (Returned a, log')
    | (Threw e, log') => handler e log'
    end.

Notation "'let*' x ':=' c 'in' k" := (bind c (fun x => k))
  (at level 10, x name, c at level 100, k at level 200).

Definition run {A} (c : io A) : outcome A * list request := c [].

(** ** KnowledgeGraphManager *)

Record KnowledgeGraphManager := {
  api : AxiosInstance
}.

Definition new_KnowledgeGraphManager (cfg : config) : KnowledgeGraphManager :=
  {| api := {| baseURL := API_BASE_URL cfg;
               headers := [("Authorization", "Bearer " +:+ API_KEY cfg);
                           ("Content-Type", "application/json")] |} |}.

(** [error.response?.data] *)
Definition response_data (e : thrown) : value :=
  match e with
  | AxiosError (Some data) _ => data
  | _ => VUndefined
  end.

(** [handleError] never returns; the result is what it throws. *)
Definition handleError (error : thrown) : thrown :=
  if isAxiosError error then
    let apiError := response_data error in
    match get_opt apiError "error" with
    | Returned e => new_Error (or_else e (VStr (message_of error)))
    | Threw t => t
    end
  else if instanceof_Error error then error
  else Error "An unknown error occurred".

(** The request that goes out through the client of [this]: the instance
    supplies the base address and the headers, the call the rest. *)
Definition request_of (this : KnowledgeGraphManager) (m : http_method)
    (url : string) (data : option value) : request :=
  {| req_method := m; req_baseURL := baseURL (api this);
     req_headers := headers (api this); req_url := url; req_data := data |}.

Section Facade.

Variable remote : request -> net_result.
Variable this : KnowledgeGraphManager.

(** [await this.api.<method>(url, data)], giving [response.data]. *)
Definition send (m : http_method) (url : string) (data : option value) : io value :=
  fun log =>
    let r := request_of this m url data in
    (match remote r with
     | Fulfilled d => Returned d
     | Rejected e => Threw e
     end, log ++ [r]).

Definition api_get (url : string) : io value := send GET url None.
Definition api_post (url : string) (data : value) : io value := send POST url (Some data).
Definition api_delete (url : string) (data : value) : io value := send DELETE url (Some data).

Definition catch_handleError {A} (body : io A) : io A :=
  try_catch body (fun error => throw (handleError error)).

Definition checkHealth : io value :=
  catch_handleError
    (let* body := api_get "/health" in
     lift (get body "data")).

Definition createEntities (entities : value) : io value :=
  catch_handleError
    (let* body := api_post "/api/entities" (VObj [("entities", entities)]) in
     let* d := lift (get body "data") in
     lift (get d "created")).

Definition createRelations (relations : value) : io value :=
  catch_handleError
    (let* body := api_post "/api/relations" (VObj [("relations", relations)]) in
     let* d := lift (get body "data") in
     lift (get d "created")).

Definition addObservations (observations : value) : io value :=
  catch_handleError
    (let* body := api_post "/api/observations" (VObj [("observations", observations)]) in
     let* d := lift (get body "data") in
     lift (get d "updates")).

Definition deleteEntities (entityNames : value) : io value :=
  catch_handleError
    (let* _ := api_delete "/api/entities" (VObj [("entityNames", entityNames)]) in
     ret VUndefined).

Definition deleteObservations (deletions : value) : io value :=
  catch_handleError
    (let* _ := api_delete "/api/observations" (VObj [("deletions", deletions)]) in
     ret VUndefined).

Definition deleteRelations (relations : value) : io value :=
  catch_handleError
    (let* _ := api_delete "/api/relations" (VObj [("relations", relations)]) in
     ret VUndefined).

Definition readGraph : io value :=
  catch_handleError
    (let* body := api_get "/api/graph" in
     lift (get body "data")).

Definition searchNodes (query : value) : io value :=
  catch_handleError
    (let* q := lift (encodeURIComponent query) in
     let* body := api_get ("/api/search?query=" +:+ q) in
     let* d := lift (get body "data") in
     lift (get d "graph")).

Definition openNodes (names : value) : io value :=
  catch_handleError
    (let* body := api_post "/api/nodes" (VObj [("names", names)]) in
     let* d := lift (get body "data") in
     lift (get d "graph")).

Definition getPatterns (category : value) : io value :=
  catch_handleError
    (let* url := (if truthy category
                  then let* c := lift (ToString category) in
                       ret ("/api/patterns?category=" +:+ c)
                  else ret "/api/patterns") in
     let* body := api_get url in
     let* d := lift (get body "data") in
     lift (get d "patterns")).

Definition getTemporalGraph (startDate endDate : value) : io value :=
  catch_handleError
    (let* s := lift (encodeURIComponent startDate) in
     let* e := lift (encodeURIComponent endDate) in
     let* body := api_get ("/api/graph/temporal?startDate=" +:+ s +:+ "&endDate=" +:+ e) in
     let* d := lift (get body "data") in
     lift (get d "graph")).

Definition findPath (from to maxDepth : value) : io value :=
  catch_handleError
    (let* url := (if truthy maxDepth
                  then let* f := lift (encodeURIComponent from) in
                       let* t := lift (encodeURIComponent to) in
                       let* m := lift (ToString maxDepth) in
                       ret ("/api/graph/path?from=" +:+ f +:+ "&to=" +:+ t
                            +:+ "&maxDepth=" +:+ m)
                  else let* f := lift (encodeURIComponent from) in
                       let* t := lift (encodeURIComponent to) in
                       ret ("/api/graph/path?from=" +:+ f +:+ "&to=" +:+ t)) in
     let* body := api_get url in
     let* d := lift (get body "data") in
     lift (get d "path")).

End Facade.

(** ** Tool registry (the list-tools handler) *)

(** A descriptor, cut down to its name, its description, and the top-level
    property names and required list of its input schema. *)
Record tool := {
  name : string;
  description : string;
  properties : list string;
  required : list string
}.

Definition tools : list tool := [
  {| name := "check_health";
     description := "Check the API server status and available features";
     properties := []; required := [] |};
  {| name := "create_entities";
     description := "Create multiple new entities in the knowledge graph";
     properties := ["entities"]; required := ["entities"] |};
  {| name := "create_relations";
     description := "Create multiple new relations between entities in the knowledge graph";
     properties := ["relations"]; required := ["relations"] |};
  {| name := "add_observations";
     description := "Add new observations to existing entities in the knowledge graph";
     properties := ["observations"]; required := ["observations"] |};
  {| name := "delete_entities";
     description := "Delete multiple entities and their associated relations from the knowledge graph";
     properties := ["entityNames"]; required := ["entityNames"] |};
  {| name := "delete_observations";
     description := "Delete specific observations from entities in the knowledge graph";
     properties := ["deletions"]; required := ["deletions"] |};
  {| name := "delete_relations";
     description := "Delete multiple relations from the knowledge graph";
     properties := ["relations"]; required := ["relations"] |};
  {| name := "read_graph";
     description := "Read the entire knowledge graph";
     properties := []; required := [] |};
  {| name := "search_nodes";
     description := "Search for nodes in the knowledge graph based on a query";
     properties := ["query"]; required := ["query"] |};
  {| name := "open_nodes";
     description := "Open specific nodes in the knowledge graph by their names";
     properties := ["names"]; required := ["names"] |};
  {| name := "get_patterns";
     description := "Get commonly used entity or relation types and their properties";
     properties := ["category"]; required := [] |};
  {| name := "get_temporal_graph";
     description := "Get graph state within a time period";
     properties := ["startDate"; "endDate"]; required := ["startDate"; "endDate"] |};
  {| name := "find_path";
     description := "Find path between two entities";
     properties := ["from"; "to"; "maxDepth"]; required := ["from"; "to"] |}
].

Definition tool_names : list string := List.map name tools.

(** ** The call-tool handler *)

Record content_item := {
  type : string;
  text : option string
}.

(** [isError] is [None] when the property is absent.  [text] is [None]
    when [JSON.stringify] gave [undefined]. *)
Record CallToolResult := {
  content : list content_item;
  isError : option bool
}.

Definition text_content (t : option string) : CallToolResult :=
  {| content := [{| type := "text"; text := t |}]; isError := None |}.

Definition error_content (t : string) : CallToolResult :=
  {| content := [{| type := "text"; text := Some t |}]; isError := Some true |}.

(** [args.k] on the argument object *)
Definition arg (args : obj) (k : string) : value :=
  default VUndefined (lookup_prop k args).

(** The [catch] clause of the handler. *)
Definition on_error (error : thrown) : CallToolResult :=
  if instanceof_Error error
  then error_content ("Error: " +:+ message_of error)
  else error_content "An unknown error occurred".

Section Handler.

Variable remote : request -> net_result.
Variable knowledgeGraphManager : KnowledgeGraphManager.

Notation "'await' f" := (f remote knowledgeGraphManager)
  (at level 9, f at level 9, only parsing).

Definition stringified (c : io value) : io CallToolResult :=
  let* r := c in ret (text_content (JSON_stringify r)).

Definition then_say (c : io value) (msg : string) : io CallToolResult :=
  let* _ := c in ret (text_content (Some msg)).

(** The [switch (name)] inside the [try]. *)
Definition dispatch (tool_name : string) (args : obj) : io CallToolResult :=
  if String.eqb tool_name "check_health" then
    stringified (await checkHealth)
  else if String.eqb tool_name "create_entities" then
    stringified (await createEntities (arg args "entities"))
  else if String.eqb tool_name "create_relations" then
    stringified (await createRelations (arg args "relations"))
  else if String.eqb tool_name "add_observations" then
    stringified (await addObservations (arg args "observations"))
  else if String.eqb tool_name "delete_entities" then
    then_say (await deleteEntities (arg args "entityNames"))
      "Entities deleted successfully"
  else if String.eqb tool_name "delete_observations" then
    then_say (await deleteObservations (arg args "deletions"))
      "Observations deleted successfully"
  else if String.eqb tool_name "delete_relations" then
    then_say (await deleteRelations (arg args "relations"))
      "Relations deleted successfully"
  else if String.eqb tool_name "read_graph" then
    stringified (await readGraph)
  else if String.eqb tool_name "search_nodes" then
    stringified (await searchNodes (arg args "query"))
  else if String.eqb tool_name "open_nodes" then
    stringified (await openNodes (arg args "names"))
  else if String.eqb tool_name "get_patterns" then
    stringified (await getPatterns (arg args "category"))
  else if String.eqb tool_name "get_temporal_graph" then
    stringified (await getTemporalGraph (arg args "startDate") (arg args "endDate"))
  else if String.eqb tool_name "find_path" then
    stringified (await findPath (arg args "from") (arg args "to") (arg args "maxDepth"))
  else
    throw (Error ("Unknown tool: " +:+ tool_name)).

(** The handler registered for [CallToolRequestSchema].  [args] is [None]
    when the request has no [arguments]; an object is always truthy. *)
Definition CallTool (tool_name : string) (args : option obj) : io CallToolResult :=
  match args with
  | None => throw (Error ("No arguments provided for tool: " +:+ tool_name))
  | Some args =>
      try_catch (dispatch tool_name args) (fun error => ret (on_error error))
  end.

End Handler.

(** ** The process *)

(** Module evaluation up to the registration of the handlers: the
    configuration check comes first, the manager and the server object are
    only built afterwards. *)
Record process := {
  manager : KnowledgeGraphManager;
  server_name : string;
  server_version : string
}.

Definition start (env : gmap string string) : outcome process :=
  obind (load_config env) (fun cfg =>
    Returned {| manager := new_KnowledgeGraphManager cfg;
                server_name := "memory-mongo-server";
                server_version := "1.0.0" |}).

(** One call-tool request against a process started in [env]; [None] when
    there is no process to serve it. *)
Definition serve (env : gmap string string) (remote : request -> net_result)
    (tool_name : string) (args : option obj)
  : option (outcome CallToolResult * list request) :=
  match start env with
  | Returned p => Some (run (CallTool remote (manager p) tool_name args))
  | Threw _ => None
  end.

(** ** The operations as data

    For statements that range over "every Facade operation": an operation
    with its arguments, what performing it means, and the routing table
    from tool names to operations as the tool catalog gives it. *)

Inductive operation :=
| CheckHealth
| CreateEntities (entities : value)
| CreateRelations (relations : value)
| AddObservations (observations : value)
| DeleteEntities (entityNames : value)
| DeleteObservations (deletions : value)
| DeleteRelations (relations : value)
| ReadGraph
| SearchNodes (query : value)
| OpenNodes (names : value)
| GetPatterns (category : value)
| GetTemporalGraph (startDate endDate : value)
| FindPath (from to maxDepth : value).

Definition perform (remote : request -> net_result) (this : KnowledgeGraphManager)
    (op : operation) : io value :=
  match op with
  | CheckHealth => checkHealth remote this
  | CreateEntities entities => createEntities remote this entities
  | CreateRelations relations => createRelations remote this relations
  | AddObservations observations => addObservations remote this observations
  | DeleteEntities entityNames => deleteEntities remote this entityNames
  | DeleteObservations deletions => deleteObservations remote this deletions
  | DeleteRelations relations => deleteRelations remote this relations
  | ReadGraph => readGraph remote this
  | SearchNodes query => searchNodes remote this query
  | OpenNodes names => openNodes remote this names
  | GetPatterns category => getPatterns remote this category
  | GetTemporalGraph startDate endDate => getTemporalGraph remote this startDate endDate
  | FindPath from to maxDepth => findPath remote this from to maxDepth
  end.

Definition routes (args : obj) : list (string * operation) := [
  ("check_health", CheckHealth);
  ("create_entities", CreateEntities (arg args "entities"));
  ("create_relations", CreateRelations (arg args "relations"));
  ("add_observations", AddObservations (arg args "observations"));
  ("delete_entities", DeleteEntities (arg args "entityNames"));
  ("delete_observations", DeleteObservations (arg args "deletions"));
  ("delete_relations", DeleteRelations (arg args "relations"));
  ("read_graph", ReadGraph);
  ("search_nodes", SearchNodes (arg args "query"));
  ("open_nodes", OpenNodes (arg args "names"));
  ("get_patterns", GetPatterns (arg args "category"));
  ("get_temporal_graph", GetTemporalGraph (arg args "startDate") (arg args "endDate"));
  ("find_path", FindPath (arg args "from") (arg args "to") (arg args "maxDepth"))
].

Fixpoint assoc {A} (k : string) (l : list (string * A)) : option A :=
  match l with
  | [] => None
  | (k', a) :: rest => if String.eqb k k' then Some a else assoc k rest
  end.

Definition operation_for (tool_name : string) (args : obj) : option operation :=
  assoc tool_name (routes args).

(** The text of a success envelope: a fixed confirmation for the three
    deletions, the pretty-printed result for the others. *)
Definition confirmation (op : operation) : option string :=
  match op with
  | DeleteEntities _ => Some "Entities deleted successfully"
  | DeleteObservations _ => Some "Observations deleted successfully"
  | DeleteRelations _ => Some "Relations deleted successfully"
  | _ => None
  end.

Definition rendered (op : operation) (result : value) : option string :=
  match confirmation op with
  | Some msg => Some msg
  | None => JSON_stringify result
  end.

(** How an operation ends once its request [r] has gone out: a rejection,
    and a failure while unwrapping the response with [post], both pass
    through [handleError]. *)
Definition settled (remote : request -> net_result)
    (post : value -> outcome value) (r : request) : outcome value :=
  match remote r with
  | Fulfilled body =>
      match post body with
      | Returned v => Returned v
      | Threw e => Threw (handleError e)
      end
  | Rejected e => Threw (handleError e)
  end.

(** The failure message as the error taxonomy words it: the server's
    [error] string when the response carries a non-empty one, the
    transport's message when it carries none, the message of any other
    [Error], and a fixed text for everything else. *)
Inductive surfaced : thrown -> string -> Prop :=
| surfaced_server body msg s :
    get_opt body "error" = Returned (VStr s) -> s <> "" ->
    surfaced (AxiosError (Some body) msg) s
| surfaced_transport response msg e :
    get_opt (response_data (AxiosError response msg)) "error" = Returned e ->
    truthy e = false ->
    surfaced (AxiosError response msg) msg
| surfaced_error msg :
    surfaced (Error msg) msg
| surfaced_unknown v :
    surfaced (NonError v) "An unknown error occurred".

(** The requests sent over the life of a process: one call-tool request
    after the other, each against the service as it is at that moment. *)
Definition session (p : process)
    (calls : list ((request -> net_result) * string * option obj)) : list request :=
  List.flat_map
    (fun call =>
       match call with
       | (remote, tool_name, args) =>
           snd (run (CallTool remote (manager p) tool_name args))
       end)
    calls.

(** ** The operations as a pipeline

    Each method of the manager, read as three steps: prepare the request
    (which can fail while the URL is put together), send it, read the
    result off the response. *)

(** The keys read off [response.data]; [None] when the response is not
    read at all. *)
Definition payload_path (op : operation) : option (list string) :=
  match op with
  | CheckHealth | ReadGraph => Some ["data"]
  | CreateEntities _ | CreateRelations _ => Some ["data"; "created"]
  | AddObservations _ => Some ["data"; "updates"]
  | SearchNodes _ | OpenNodes _ | GetTemporalGraph _ _ => Some ["data"; "graph"]
  | GetPatterns _ => Some ["data"; "patterns"]
  | FindPath _ _ _ => Some ["data"; "path"]
  | DeleteEntities _ | DeleteObservations _ | DeleteRelations _ => None
  end.

Fixpoint walk (path : list string) (v : value) : outcome value :=
  match path with
  | [] => Returned v
  | k :: rest => obind (get v k) (walk rest)
  end.

Definition unwrap (op : operation) (body : value) : outcome value :=
  match payload_path op with
  | Some path => walk path body
  | None => Returned VUndefined
  end.

Definition prepared (this : KnowledgeGraphManager) (op : operation) : outcome request :=
  match op with
  | CheckHealth => Returned (request_of this GET "/health" None)
  | CreateEntities entities =>
      Returned (request_of this POST "/api/entities"
                  (Some (VObj [("entities", entities)])))
  | CreateRelations relations =>
      Returned (request_of this POST "/api/relations"
                  (Some (VObj [("relations", relations)])))
  | AddObservations observations =>
      Returned (request_of this POST "/api/observations"
                  (Some (VObj [("observations", observations)])))
  | DeleteEntities entityNames =>
      Returned (request_of this DELETE "/api/entities"
                  (Some (VObj [("entityNames", entityNames)])))
  | DeleteObservations deletions =>
      Returned (request_of this DELETE "/api/observations"
                  (Some (VObj [("deletions", deletions)])))
  | DeleteRelations relations =>
      Returned (request_of this DELETE "/api/relations"
                  (Some (VObj [("relations", relations)])))
  | ReadGraph => Returned (request_of this GET "/api/graph" None)
  | SearchNodes query =>
      obind (encodeURIComponent query) (fun q =>
      Returned (request_of this GET ("/api/search?query=" +:+ q) None))
  | OpenNodes names =>
      Returned (request_of this POST "/api/nodes" (Some (VObj [("names", names)])))
  | GetPatterns category =>
      if truthy category then
        obind (ToString category) (fun c =>
        Returned (request_of this GET ("/api/patterns?category=" +:+ c) None))
      else Returned (request_of this GET "/api/patterns" None)
  | GetTemporalGraph startDate endDate =>
      obind (encodeURIComponent startDate) (fun s =>
      obind (encodeURIComponent endDate) (fun e =>
      Returned (request_of this GET
                  ("/api/graph/temporal?startDate=" +:+ s +:+ "&endDate=" +:+ e)
                  None)))
  | FindPath from to maxDepth =>
      if truthy maxDepth then
        obind (encodeURIComponent from) (fun f =>
        obind (encodeURIComponent to) (fun t =>
        obind (ToString maxDepth) (fun m =>
        Returned (request_of this GET
                    ("/api/graph/path?from=" +:+ f +:+ "&to=" +:+ t
                     +:+ "&maxDepth=" +:+ m) None))))
      else
        obind (encodeURIComponent from) (fun f =>
        obind (encodeURIComponent to) (fun t =>
        Returned (request_of this GET
                    ("/api/graph/path?from=" +:+ f +:+ "&to=" +:+ t) None)))
  end.

(** The value of a hexadecimal digit, for reading [%XX] back. *)
Definition hex_value (c : ascii) : nat :=
  let n := nat_of_ascii c in
  if between 48 57 n then n - 48
  else if between 65 70 n then n - 55
  else 0.

(** The characters [encodeURIComponent] can produce. *)
Definition uri_safe (c : ascii) : bool :=
  uri_unescaped c || Ascii.eqb c "%".

Fixpoint all_chars (p : ascii -> bool) (s : string) : bool :=
  match s with
  | EmptyString => true
  | String c rest => p c && all_chars p rest
  end.

(** ** The earlier revision of the module (first half of the source file)

    Nine tools, no health, pattern, temporal or path operations.  Its
    start-up check and its client are those of the later revision; its
    [handleError] substitutes an empty object for a missing body. *)

Module V1.

Definition handleError (error : thrown) : thrown :=
  if isAxiosError error then
    let apiError := or_else (response_data error) (VObj []) in
    match get_opt apiError "error" with
    | Returned e => new_Error (or_else e (VStr (message_of error)))
    | Threw t => t
    end
  else if instanceof_Error error then error
  else Error "An unknown error occurred".

Section Facade.

Variable remote : request -> net_result.
Variable this : KnowledgeGraphManager.

Definition catch_handleError {A} (body : io A) : io A :=
  try_catch body (fun error => throw (handleError error)).

Definition createEntities (entities : value) : io value :=
  catch_handleError
    (let* body := api_post remote this "/api/entities" (VObj [("entities", entities)]) in
     let* d := lift (get body "data") in
     lift (get d "created")).

Definition createRelations (relations : value) : io value :=
  catch_handleError
    (let* body := api_post remote this "/api/relations" (VObj [("relations", relations)]) in
     let* d := lift (get body "data") in
     lift (get d "created")).

Definition addObservations (observations : value) : io value :=
  catch_handleError
    (let* body := api_post remote this "/api/observations"
                    (VObj [("observations", observations)]) in
     let* d := lift (get body "data") in
     lift (get d "updates")).

Definition deleteEntities (entityNames : value) : io value :=
  catch_handleError
    (let* _ := api_delete remote this "/api/entities"
                 (VObj [("entityNames", entityNames)]) in
     ret VUndefined).

Definition deleteObservations (deletions : value) : io value :=
  catch_handleError
    (let* _ := api_delete remote this "/api/observations"
                 (VObj [("deletions", deletions)]) in
     ret VUndefined).

Definition deleteRelations (relations : value) : io value :=
  catch_handleError
    (let* _ := api_delete remote this "/api/relations"
                 (VObj [("relations", relations)]) in
     ret VUndefined).

Definition readGraph : io value :=
  catch_handleError
    (let* body := api_get remote this "/api/graph" in
     lift (get body "data")).

Definition searchNodes (query : value) : io value :=
  catch_handleError
    (let* q := lift (encodeURIComponent query) in
     let* body := api_get remote this ("/api/search?query=" +:+ q) in
     let* d := lift (get body "data") in
     lift (get d "graph")).

Definition openNodes (names : value) : io value :=
  catch_handleError
    (let* body := api_post remote this "/api/nodes" (VObj [("names", names)]) in
     let* d := lift (get body "data") in
     lift (get d "graph")).

End Facade.

Definition tools : list tool := [
  {| name := "create_entities";
     description := "Create multiple new entities in the knowledge graph";
     properties := ["entities"]; required := ["entities"] |};
  {| name := "create_relations";
     description := "Create multiple new relations between entities in the knowledge graph. Relations should be in active voice";
     properties := ["relations"]; required := ["relations"] |};
  {| name := "add_observations";
     description := "Add new observations to existing entities in the knowledge graph";
     properties := ["observations"]; required := ["observations"] |};
  {| name := "delete_entities";
     description := "Delete multiple entities and their associated relations from the knowledge graph";
     properties := ["entityNames"]; required := ["entityNames"] |};
  {| name := "delete_observations";
     description := "Delete specific observations from entities in the knowledge graph";
     properties := ["deletions"]; required := ["deletions"] |};
  {| name := "delete_relations";
     description := "Delete multiple relations from the knowledge graph";
     properties := ["relations"]; required := ["relations"] |};
  {| name := "read_graph";
     description := "Read the entire knowledge graph";
     properties := []; required := [] |};
  {| name := "search_nodes";
     description := "Search for nodes in the knowledge graph based on a query";
     properties := ["query"]; required := ["query"] |};
  {| name := "open_nodes";
     description := "Open specific nodes in the knowledge graph by their names";
     properties := ["names"]; required := ["names"] |}
].

Definition tool_names : list string := List.map name tools.

Section Handler.

Variable remote : request -> net_result.
Variable knowledgeGraphManager : KnowledgeGraphManager.

Notation "'await' f" := (f remote knowledgeGraphManager)
  (at level 9, f at level 9, only parsing).

Definition dispatch (tool_name : string) (args : obj) : io CallToolResult :=
  if String.eqb tool_name "create_entities" then
    stringified (await createEntities (arg args "entities"))
  else if String.eqb tool_name "create_relations" then
    stringified (await createRelations (arg args "relations"))
  else if String.eqb tool_name "add_observations" then
    stringified (await addObservations (arg args "observations"))
  else if String.eqb tool_name "delete_entities" then
    then_say (await deleteEntities (arg args "entityNames"))
      "Entities deleted successfully"
  else if String.eqb tool_name "delete_observations" then
    then_say (await deleteObservations (arg args "deletions"))
      "Observations deleted successfully"
  else if String.eqb tool_name "delete_relations" then
    then_say (await deleteRelations (arg args "relations"))
      "Relations deleted successfully"
  else if String.eqb tool_name "read_graph" then
    stringified (await readGraph)
  else if String.eqb tool_name "search_nodes" then
    stringified (await searchNodes (arg args "query"))
  else if String.eqb tool_name "open_nodes" then
    stringified (await openNodes (arg args "names"))
  else
    throw (Error ("Unknown tool: " +:+ tool_name)).

Definition CallTool (tool_name : string) (args : option obj) : io CallToolResult :=
  match args with
  | None => throw (Error ("No arguments provided for tool: " +:+ tool_name))
  | Some args =>
      try_catch (dispatch tool_name args) (fun error => ret (on_error error))
  end.

End Handler.

End V1.

(** ** The entry point

    [main] connects the server to the stdio transport and announces
    itself on standard error; the handler attached to its promise prints a
    diagnostic and exits with status 1.  [connect] is what
    [server.connect(transport)] comes to.  A line of [stderr] is
    [console.error] of its arguments, joined by a space. *)

Definition main (connect : outcome unit) : outcome (list string) :=
  obind connect (fun _ =>
  Returned ["Knowledge Graph MCP Server (MongoDB) running on stdio"]).

Record ending := {
  stderr : list string;
  exit_status : option Z
}.

Definition main_catch (error : thrown) : ending :=
  {| stderr := ["Fatal error in main(): "
                +:+ (if instanceof_Error error then message_of error
                     else "An unknown error occurred")];
     exit_status := Some 1%Z |}.

(** The whole module: the exception of the configuration check is raised
    at top level, before [main] is called, and is not seen by the handler
    attached to [main]. *)
Definition program (env : gmap string string) (connect : outcome unit) : outcome ending :=
  obind (start env) (fun _ =>
  match main connect with
  | Returned lines => Returned {| stderr := lines; exit_status := None |}
  | Threw error => Returned (main_catch error)
  end).

(** ** Scenario data *)

Definition sample_env : gmap string string := {[ "MEMORY_API_KEY" := "test-api-key-123" ]}.

Definition sample_manager : KnowledgeGraphManager :=
  new_KnowledgeGraphManager
    {| API_KEY := "test-api-key-123"; API_BASE_URL := default_base_url |}.

(** A service that answers every request [{success: true, data: {}}]. *)
Definition remote_empty_payload (_ : request) : net_result :=
  Fulfilled (VObj [("success", VBool true); ("data", VObj [])]).

(** A service that rejects every request with the given status line and
    [{success: false, error}] body. *)
Definition remote_rejecting (status error : string) (_ : request) : net_result :=
  Rejected (AxiosError (Some (VObj [("success", VBool false); ("error", VStr error)]))
              ("Request failed with status code " +:+ status)).

(** A service that echoes the entities it was sent as created. *)
Definition remote_echo (r : request) : net_result :=
  match req_data r with
  | Some (VObj [(_, sent)]) =>
      Fulfilled (VObj [("success", VBool true); ("data", VObj [("created", sent)])])
  | _ => Fulfilled (VObj [("success", VBool true); ("data", VObj [])])
  end.

Definition person1 : value :=
  VObj [("name", VStr "Person1"); ("entityType", VStr "person");
        ("observations", VArr [VStr "likes coffee"])].

(** * Properties *)

(** ** The JavaScript fragment *)

(** Induction on values, through the lists that nest them. *)
Lemma value_nested_ind (P : value -> Prop) :
  P VUndefined -> P VNull -> (forall b, P (VBool b)) -> (forall n, P (VNum n)) ->
  (forall s, P (VStr s)) ->
  (forall items, Forall P items -> P (VArr items)) ->
  (forall props, Forall (fun kv => P (snd kv)) props -> P (VObj props)) ->
  forall v, P v.
Proof.
  intros Hu Hn Hb Hnum Hs Ha Ho.
  fix IH 1. intros [ | | b | n | s | items | props].
  - exact Hu.
  - exact Hn.
  - apply Hb.
  - apply Hnum.
  - apply Hs.
  - apply Ha. induction items as [|x rest IHrest]; constructor.
    + apply IH.
    + exact IHrest.
  - apply Ho. induction props as [|[k x] rest IHrest]; constructor.
    + apply IH.
    + exact IHrest.
Qed.

Lemma join_comma_throws (parts : list (outcome string)) (e : thrown) :
  join_comma parts = Threw e -> In (Threw e) parts.
Proof.
  induction parts as [|p rest IHrest]; [discriminate|].
  destruct rest as [|q rest'].
  - simpl. intros H. left. exact H.
  - change (join_comma (p :: q :: rest'))
      with (obind p (fun s => obind (join_comma (q :: rest'))
                                (fun r => Returned (s +:+ "," +:+ r)))).
    remember (join_comma (q :: rest')) as tail eqn:Etail.
    destruct p as [s|e']; [destruct tail as [r|e'']|]; cbn [obind]; intros H.
    + discriminate H.
    + right. apply IHrest. exact H.
    + left. exact H.
Qed.

Lemma ToString_throws (v : value) (e : thrown) :
  ToString v = Threw e -> e = cannot_convert.
Proof.
  revert e. induction v as [ | | [|] | n | s | items IHitems | props _]
    using value_nested_ind; simpl; intros e; try discriminate.
  - intros H%join_comma_throws. apply in_map_iff in H as (x & Hx & Hin).
    rewrite List.Forall_forall in IHitems.
    destruct x; try discriminate; apply (IHitems _ Hin _ Hx).
  - destruct (has_own "toString" props); [|discriminate].
    intros H. now injection H as <-.
Qed.

Lemma new_Error_is_Error (v : value) : exists m, new_Error v = Error m.
Proof.
  unfold new_Error. destruct (ToString v) as [m|e] eqn:E.
  - destruct v; eauto.
  - apply ToString_throws in E as ->. destruct v; unfold cannot_convert; eauto.
Qed.

Lemma get_opt_total (v : value) (k : string) : exists r, get_opt v k = Returned r.
Proof. destruct v; simpl; eauto. Qed.

Lemma serialize_undefined (stepback : string) (v : value) :
  serialize stepback v = None <-> v = VUndefined.
Proof.
  split; [|now intros ->].
  destruct v as [ | | [|] | [ | | |b|neg d pt] | s | items | props]; simpl; congruence.
Qed.

Example stringify_layout :
  JSON_stringify (VArr [VNum (NInt 1); VArr []; VUndefined; VObj [];
                        VArr [VBool true; VNum (NInt (-12))]])
  = Some "[
  1,
  [],
  null,
  {},
  [
    true,
    -12
  ]
]".
Proof. reflexivity. Qed.

Example stringify_member :
  JSON_stringify (VObj [("n", VNum NNaN); ("gone", VUndefined)])
  = Some ("{" +:+ newline +:+ "  " +:+ dquote +:+ "n" +:+ dquote +:+ ": null"
          +:+ newline +:+ "}").
Proof. reflexivity. Qed.

Example number_to_string_forms :
  number_to_string (NInt 5) = "5"
  /\ number_to_string (NInt (-1200)) = "-1200"
  /\ number_to_string (NInt (10 ^ 21)) = "1e+21"
  /\ number_to_string (NInt 123456789012345680000) = "123456789012345680000"
  /\ number_to_string (NFinite false 9 0) = "0.9"
  /\ number_to_string (NFinite false 25 1) = "2.5"
  /\ number_to_string (NFinite false 1 (-5)) = "0.000001"
  /\ number_to_string (NFinite false 1 (-6)) = "1e-7"
  /\ number_to_string (NFinite true 15 301) = "-1.5e+300".
Proof. repeat split. Qed.

Example number_to_string_shortest_digits :
  number_to_string (NFinite false 1152921504606847 19) = "1152921504606847000".
Proof. reflexivity. Qed.

Example stringify_numbers :
  JSON_stringify (VArr [VNum (NFinite false 9 0); VNum (NInt (10 ^ 21));
                        VNum NNegZero; VNum (NInfinity false)])
  = Some "[
  0.9,
  1e+21,
  0,
  null
]".
Proof. reflexivity. Qed.

Example stringify_undefined : JSON_stringify VUndefined = None.
Proof. reflexivity. Qed.

Example encode_reserved :
  encodeURIComponent (VStr "A b&c/d?~'()*!") = Returned "A%20b%26c%2Fd%3F~'()*!".
Proof. reflexivity. Qed.

Example encode_undefined : encodeURIComponent VUndefined = Returned "undefined".
Proof. reflexivity. Qed.

Example ToString_array :
  ToString (VArr [VNum (NInt 1); VNull; VArr [VStr "x"; VStr "y"]]) = Returned "1,,x,y".
Proof. reflexivity. Qed.

(** ** handleError *)

Lemma handleError_is_Error (error : thrown) : exists m, handleError error = Error m.
Proof.
  unfold handleError. destruct error as [response msg|msg|v]; simpl; eauto.
  destruct (get_opt_total (response_data (AxiosError response msg)) "error") as [r Hr].
  simpl in Hr. rewrite Hr. apply new_Error_is_Error.
Qed.

Lemma handleError_surfaced (error : thrown) (m : string) :
  surfaced error m -> handleError error = Error m.
Proof.
  intros [body msg s Hget Hs | response msg e Hget He | msg | v];
    unfold handleError; simpl; try reflexivity.
  - rewrite Hget. unfold or_else. simpl.
    destruct s; [congruence|reflexivity].
  - simpl in Hget. rewrite Hget. unfold or_else. rewrite He. simpl.
    reflexivity.
Qed.

(** ** The Facade: one request per operation *)

Ltac io_unfold :=
  unfold catch_handleError, try_catch, bind, lift, ret, throw,
    api_get, api_post, api_delete, send, settled, request_of.

Ltac io_step :=
  match goal with
  | |- context [match ?answer with Fulfilled _ => _ | Rejected _ => _ end] =>
      destruct answer
  | |- context [get ?v ?k] => destruct (get v k)
  end.

Section FacadeFacts.

Variable remote : request -> net_result.
Variable this : KnowledgeGraphManager.

Local Ltac sent m url data post :=
  right; exists m, url, data, post; io_unfold;
  repeat (cbn [obind]; io_step); reflexivity.

Lemma perform_cases (op : operation) (log : list request) :
  (exists e, perform remote this op log = (Threw (handleError e), log))
  \/ (exists m url data post,
        perform remote this op log
        = (settled remote post (request_of this m url data),
           log ++ [request_of this m url data])).
Proof.
  destruct op; cbn [perform].
  - unfold checkHealth.
    sent GET "/health" (@None value) (fun body => get body "data").
  - unfold createEntities.
    sent POST "/api/entities" (Some (VObj [("entities", entities)]))
      (fun body => obind (get body "data") (fun d => get d "created")).
  - unfold createRelations.
    sent POST "/api/relations" (Some (VObj [("relations", relations)]))
      (fun body => obind (get body "data") (fun d => get d "created")).
  - unfold addObservations.
    sent POST "/api/observations" (Some (VObj [("observations", observations)]))
      (fun body => obind (get body "data") (fun d => get d "updates")).
  - unfold deleteEntities.
    sent DELETE "/api/entities" (Some (VObj [("entityNames", entityNames)]))
      (fun _ : value => Returned VUndefined).
  - unfold deleteObservations.
    sent DELETE "/api/observations" (Some (VObj [("deletions", deletions)]))
      (fun _ : value => Returned VUndefined).
  - unfold deleteRelations.
    sent DELETE "/api/relations" (Some (VObj [("relations", relations)]))
      (fun _ : value => Returned VUndefined).
  - unfold readGraph.
    sent GET "/api/graph" (@None value) (fun body => get body "data").
  - unfold searchNodes.
    destruct (encodeURIComponent query) as [q|e] eqn:Eq.
    + right. exists GET, ("/api/search?query=" +:+ q), (@None value),
        (fun body => obind (get body "data") (fun d => get d "graph")).
      io_unfold. repeat (cbn [obind]; io_step); reflexivity.
    + left. exists e. io_unfold. reflexivity.
  - unfold openNodes.
    sent POST "/api/nodes" (Some (VObj [("names", names)]))
      (fun body => obind (get body "data") (fun d => get d "graph")).
  - unfold getPatterns.
    destruct (truthy category).
    + destruct (ToString category) as [c|e] eqn:Ec.
      * right. exists GET, ("/api/patterns?category=" +:+ c), (@None value),
          (fun body => obind (get body "data") (fun d => get d "patterns")).
        io_unfold. repeat (cbn [obind]; io_step); reflexivity.
      * left. exists e. io_unfold. reflexivity.
    + sent GET "/api/patterns" (@None value)
        (fun body => obind (get body "data") (fun d => get d "patterns")).
  - unfold getTemporalGraph.
    destruct (encodeURIComponent startDate) as [s|e] eqn:Es.
    + destruct (encodeURIComponent endDate) as [s'|e] eqn:Ee.
      * right. exists GET,
          ("/api/graph/temporal?startDate=" +:+ s +:+ "&endDate=" +:+ s'),
          (@None value),
          (fun body => obind (get body "data") (fun d => get d "graph")).
        io_unfold. repeat (cbn [obind]; io_step); reflexivity.
      * left. exists e. io_unfold. reflexivity.
    + left. exists e. io_unfold. reflexivity.
  - unfold findPath.
    destruct (encodeURIComponent from) as [f|e] eqn:Ef;
      [|left; exists e; io_unfold; destruct (truthy maxDepth); reflexivity].
    destruct (encodeURIComponent to) as [t|e] eqn:Et;
      [|left; exists e; io_unfold; destruct (truthy maxDepth); reflexivity].
    destruct (truthy maxDepth).
    + destruct (ToString maxDepth) as [m|e] eqn:Em.
      * right. exists GET,
          ("/api/graph/path?from=" +:+ f +:+ "&to=" +:+ t +:+ "&maxDepth=" +:+ m),
          (@None value),
          (fun body => obind (get body "data") (fun d => get d "path")).
        io_unfold. repeat (cbn [obind]; io_step); reflexivity.
      * left. exists e. io_unfold. reflexivity.
    + right. exists GET, ("/api/graph/path?from=" +:+ f +:+ "&to=" +:+ t),
        (@None value),
        (fun body => obind (get body "data") (fun d => get d "path")).
      io_unfold. repeat (cbn [obind]; io_step); reflexivity.
Qed.

Lemma settled_throws (post : value -> outcome value) (r : request) (e : thrown) :
  settled remote post r = Threw e -> exists m, e = Error m.
Proof.
  unfold settled. destruct (remote r) as [body|e'].
  - destruct (post body) as [v|e']; [discriminate|].
    intros [= <-]. destruct (handleError_is_Error e') as [m ->]. eauto.
  - intros [= <-]. destruct (handleError_is_Error e') as [m ->]. eauto.
Qed.

(** Whatever an operation throws is an [Error] carrying a message. *)
Lemma perform_throws_Error (op : operation) (log log' : list request) (e : thrown) :
  perform remote this op log = (Threw e, log') -> exists m, e = Error m.
Proof.
  destruct (perform_cases op log) as [(e0 & ->) | (m & url & data & post & ->)].
  - intros [= <- _]. destruct (handleError_is_Error e0) as [msg ->]. eauto.
  - intros [= H _]. exact (settled_throws _ _ _ H).
Qed.

(** An operation issues at most one request, through the client of [this]. *)
Lemma perform_requests (op : operation) (log : list request) :
  snd (perform remote this op log) = log
  \/ exists m url data,
       snd (perform remote this op log) = log ++ [request_of this m url data].
Proof.
  destruct (perform_cases op log) as [(e0 & ->) | (m & url & data & post & ->)].
  - now left.
  - right. now exists m, url, data.
Qed.

(** A rejected request ends the operation with what [handleError] throws. *)
Lemma perform_rejected (op : operation) (log : list request) (r : request) (e : thrown) :
  snd (perform remote this op log) = log ++ [r] ->
  remote r = Rejected e ->
  fst (perform remote this op log) = Threw (handleError e).
Proof.
  destruct (perform_cases op log) as [(e0 & ->) | (m & url & data & post & ->)];
    cbn [fst snd]; intros Hlog Hr.
  - apply (f_equal (@length request)) in Hlog.
    rewrite length_app in Hlog. simpl in Hlog. lia.
  - apply app_inv_head in Hlog. injection Hlog as ->.
    unfold settled. now rewrite Hr.
Qed.

End FacadeFacts.

(** ** The dispatcher *)

Lemma assoc_None {A} (k : string) (l : list (string * A)) :
  assoc k l = None <-> ~ In k (List.map fst l).
Proof.
  induction l as [|[k' a] rest IH]; simpl.
  - tauto.
  - destruct (String.eqb_spec k k') as [->|Hne].
    + split; [discriminate|]. intros H. exfalso. apply H. now left.
    + rewrite IH. split.
      * intros H [Heq|Hin]; [congruence|contradiction].
      * intros H Hin. apply H. now right.
Qed.

Lemma routes_names (args : obj) : List.map fst (routes args) = tool_names.
Proof. reflexivity. Qed.

Lemma operation_for_None (tool_name : string) (args : obj) :
  operation_for tool_name args = None <-> ~ In tool_name tool_names.
Proof. unfold operation_for. now rewrite assoc_None, routes_names. Qed.

Lemma operation_for_registered (tool_name : string) (args : obj) :
  In tool_name tool_names -> exists op, operation_for tool_name args = Some op.
Proof.
  intros Hin. destruct (operation_for tool_name args) as [op|] eqn:E; [eauto|].
  apply operation_for_None in E. contradiction.
Qed.

(** The [switch] implements the routing table: a routed name performs its
    operation and wraps the rendered result, any other name throws. *)
Lemma dispatch_routes (remote : request -> net_result) (mgr : KnowledgeGraphManager)
    (tool_name : string) (args : obj) :
  dispatch remote mgr tool_name args
  = match operation_for tool_name args with
    | Some op =>
        let* r := perform remote mgr op in ret (text_content (rendered op r))
    | None => throw (Error ("Unknown tool: " +:+ tool_name))
    end.
Proof.
  unfold dispatch, operation_for, routes. cbn [assoc].
  repeat match goal with
         | |- context [String.eqb tool_name ?k] =>
             destruct (String.eqb tool_name k); [reflexivity|]
         end.
  reflexivity.
Qed.

Lemma CallTool_present (remote : request -> net_result) (mgr : KnowledgeGraphManager)
    (tool_name : string) (args : obj) (log : list request) :
  CallTool remote mgr tool_name (Some args) log
  = match dispatch remote mgr tool_name args log with
    | (Returned res, log') => (Returned res, log')
    | (Threw e, log') => (Returned (on_error e), log')
    end.
Proof. reflexivity. Qed.

(** What the [switch] does on a routed name, by the outcome of the
    operation. *)
Lemma dispatch_routed (remote : request -> net_result) (mgr : KnowledgeGraphManager)
    (tool_name : string) (args : obj) (op : operation) (log : list request) :
  operation_for tool_name args = Some op ->
  dispatch remote mgr tool_name args log
  = match perform remote mgr op log with
    | (Returned r, log') => (Returned (text_content (rendered op r)), log')
    | (Threw e, log') => (Threw e, log')
    end.
Proof. intros H. rewrite dispatch_routes, H. reflexivity. Qed.

(** Nothing but [Error] instances is ever thrown inside the [try]. *)
Lemma dispatch_throws_Error (remote : request -> net_result) (mgr : KnowledgeGraphManager)
    (tool_name : string) (args : obj) (log log' : list request) (e : thrown) :
  dispatch remote mgr tool_name args log = (Threw e, log') -> exists m, e = Error m.
Proof.
  rewrite dispatch_routes.
  destruct (operation_for tool_name args) as [op|].
  - unfold bind. destruct (perform remote mgr op log) as [[r|e'] l] eqn:E.
    + discriminate.
    + intros [= <- _]. exact (perform_throws_Error _ _ _ _ _ _ E).
  - intros [= <- _]. eauto.
Qed.

(** ** Claims about absent arguments and unknown tools *)

(** C1 (as amended).  A call-tool request without an argument object makes
    the handler throw, before the [try] and before any Facade operation,
    an [Error] whose message is "No arguments provided for tool: " followed
    by the tool name; no envelope is returned and no request is sent. *)
Theorem CallTool_absent_arguments (remote : request -> net_result)
    (mgr : KnowledgeGraphManager) (tool_name : string) (log : list request) :
  CallTool remote mgr tool_name None log
  = (Threw (Error ("No arguments provided for tool: " +:+ tool_name)), log).
Proof. reflexivity. Qed.

(** C1 as stated fails: for [read_graph] without arguments the handler
    returns no envelope at all, it throws. *)
Lemma absent_arguments_no_envelope :
  run (CallTool remote_empty_payload sample_manager "read_graph" None)
  = (Threw (Error "No arguments provided for tool: read_graph"), [])
  /\ ~ exists res,
         fst (run (CallTool remote_empty_payload sample_manager "read_graph" None))
         = Returned res /\ isError res = Some true.
Proof.
  split; [reflexivity|].
  intros (res & H & _). discriminate H.
Qed.

(** C3.  A call with an argument object whose name is none of the thirteen
    registered ones returns (it does not throw) the error envelope whose
    text is "Error: Unknown tool: " followed by the name, and sends
    nothing. *)
Theorem CallTool_unknown_tool (remote : request -> net_result)
    (mgr : KnowledgeGraphManager) (tool_name : string) (args : obj)
    (log : list request) :
  ~ In tool_name tool_names ->
  length tool_names = 13
  /\ CallTool remote mgr tool_name (Some args) log
     = (Returned {| content := [{| type := "text";
                                   text := Some ("Error: Unknown tool: " +:+ tool_name) |}];
                    isError := Some true |}, log).
Proof.
  intros Hnot. split; [reflexivity|].
  rewrite CallTool_present, dispatch_routes.
  apply operation_for_None with (args := args) in Hnot. rewrite Hnot.
  reflexivity.
Qed.

Lemma CallTool_unknown_tool_witness :
  length tool_names = 13
  /\ CallTool remote_empty_payload sample_manager "drop_database" (Some []) []
     = (Returned {| content := [{| type := "text";
                                   text := Some "Error: Unknown tool: drop_database" |}];
                    isError := Some true |}, []).
Proof.
  apply (CallTool_unknown_tool remote_empty_payload sample_manager
           "drop_database" [] []).
  vm_compute. intuition discriminate.
Defined.

(** C10.  When the [try] block fails with [e], the handler returns the
    envelope with [isError: true] whose text is "Error: " followed by the
    message when [e] is an [Error] instance (an [AxiosError] is one), and
    "An unknown error occurred" otherwise. *)
Theorem CallTool_error_text (remote : request -> net_result)
    (mgr : KnowledgeGraphManager) (tool_name : string) (args : obj)
    (log log' : list request) (e : thrown) :
  dispatch remote mgr tool_name args log = (Threw e, log') ->
  CallTool remote mgr tool_name (Some args) log
  = (Returned {| content :=
                   [{| type := "text";
                       text := Some match e with
                                    | AxiosError _ m | Error m => "Error: " +:+ m
                                    | NonError _ => "An unknown error occurred"
                                    end |}];
                 isError := Some true |}, log').
Proof.
  intros H. rewrite CallTool_present, H. now destruct e.
Qed.

Lemma CallTool_error_text_witness :
  CallTool (remote_rejecting "404" "Entity not found: NoSuchEntity") sample_manager
    "find_path" (Some [("from", VStr "Person1"); ("to", VStr "NoSuchEntity")]) []
  = (Returned {| content :=
                   [{| type := "text";
                       text := Some "Error: Entity not found: NoSuchEntity" |}];
                 isError := Some true |},
     [request_of sample_manager GET
        "/api/graph/path?from=Person1&to=NoSuchEntity" None]).
Proof.
  apply (CallTool_error_text (remote_rejecting "404" "Entity not found: NoSuchEntity")
           sample_manager "find_path"
           [("from", VStr "Person1"); ("to", VStr "NoSuchEntity")] []
           [request_of sample_manager GET
              "/api/graph/path?from=Person1&to=NoSuchEntity" None]
           (Error "Entity not found: NoSuchEntity")).
  reflexivity.
Defined.

(** The [catch] clause on a value that is not an [Error]. *)
Example on_error_non_Error :
  on_error (NonError (VStr "boom")) = error_content "An unknown error occurred".
Proof. reflexivity. Qed.

(** ** Claims about the Facade *)

(** C2 (as amended).  When the one request [r] of a Facade operation is
    rejected with [e], the operation throws a single [Error] whose message
    is: the [error] string of the response body when that string is not
    empty; the transport's own message when the body has no truthy [error]
    (no response at all, no such field, or an empty one); the message of
    [e] when it is some other [Error]; "An unknown error occurred" when it
    is not an [Error].  Every failure is converted: [handleError] always
    yields an [Error] with a message. *)
Theorem facade_failure_message (remote : request -> net_result)
    (this : KnowledgeGraphManager) (op : operation) (log : list request)
    (r : request) (e : thrown) (m : string) :
  snd (perform remote this op log) = log ++ [r] ->
  remote r = Rejected e ->
  surfaced e m ->
  handleError e = Error m
  /\ perform remote this op log = (Threw (Error m), log ++ [r])
  /\ forall e', exists m', handleError e' = Error m'.
Proof.
  intros Hlog Hrej Hm.
  pose proof (handleError_surfaced _ _ Hm) as Hh.
  pose proof (perform_rejected remote this op log r e Hlog Hrej) as Hfst.
  repeat split.
  - exact Hh.
  - rewrite (surjective_pairing (perform remote this op log)).
    now rewrite Hfst, Hlog, Hh.
  - apply handleError_is_Error.
Qed.

Lemma facade_failure_message_witness :
  handleError
    (AxiosError (Some (VObj [("success", VBool false); ("error", VStr "Unauthorized")]))
       "Request failed with status code 401")
  = Error "Unauthorized"
  /\ perform (remote_rejecting "401" "Unauthorized") sample_manager ReadGraph []
     = (Threw (Error "Unauthorized"), [] ++ [request_of sample_manager GET "/api/graph" None])
  /\ forall e', exists m', handleError e' = Error m'.
Proof.
  apply (facade_failure_message (remote_rejecting "401" "Unauthorized")
           sample_manager ReadGraph []
           (request_of sample_manager GET "/api/graph" None)).
  - reflexivity.
  - reflexivity.
  - apply surfaced_server; [reflexivity|discriminate].
Defined.

(** C2 as stated fails on an empty [error] string: the body carries the
    string, yet the message is the transport's. *)
Lemma handleError_empty_error_string :
  get_opt (VObj [("success", VBool false); ("error", VStr "")]) "error"
  = Returned (VStr "")
  /\ handleError
       (AxiosError (Some (VObj [("success", VBool false); ("error", VStr "")]))
          "Request failed with status code 400")
     = Error "Request failed with status code 400"
  /\ Error "Request failed with status code 400" <> Error "".
Proof. repeat split; discriminate. Qed.

Example handleError_unreachable :
  handleError (AxiosError None "connect ECONNREFUSED 127.0.0.1:3000")
  = Error "connect ECONNREFUSED 127.0.0.1:3000".
Proof. reflexivity. Qed.

Example handleError_body_without_error :
  handleError (AxiosError (Some (VStr "<html>Bad Gateway</html>"))
                 "Request failed with status code 502")
  = Error "Request failed with status code 502".
Proof. reflexivity. Qed.

Example handleError_non_Error :
  handleError (NonError (VNum (NInt 42))) = Error "An unknown error occurred".
Proof. reflexivity. Qed.

(** C5 (as amended).  With [maxDepth] omitted, [findPath] requests
    [/api/graph/path?from=..&to=..] with no [maxDepth] parameter; with
    [maxDepth] a truthy number (neither zero nor NaN) the same URL is
    followed by [&maxDepth=] and the number. *)
Theorem findPath_url (remote : request -> net_result) (this : KnowledgeGraphManager)
    (from to : string) (n : number) (log : list request) :
  truthy_number n = true ->
  snd (findPath remote this (VStr from) (VStr to) VUndefined log)
  = log ++ [request_of this GET
              ("/api/graph/path?from=" +:+ encode_bytes from
               +:+ "&to=" +:+ encode_bytes to) None]
  /\ snd (findPath remote this (VStr from) (VStr to) (VNum n) log)
     = log ++ [request_of this GET
                 ("/api/graph/path?from=" +:+ encode_bytes from
                  +:+ "&to=" +:+ encode_bytes to
                  +:+ "&maxDepth=" +:+ number_to_string n) None].
Proof.
  intros Hn. unfold findPath. io_unfold. cbn [truthy encodeURIComponent ToString obind].
  rewrite Hn. split; repeat (cbn [obind]; io_step); reflexivity.
Qed.

Lemma findPath_url_witness :
  snd (findPath remote_empty_payload sample_manager (VStr "A") (VStr "B") VUndefined [])
  = [] ++ [request_of sample_manager GET
             ("/api/graph/path?from=" +:+ encode_bytes "A"
              +:+ "&to=" +:+ encode_bytes "B") None]
  /\ snd (findPath remote_empty_payload sample_manager (VStr "A") (VStr "B")
            (VNum (NInt 5)) [])
     = [] ++ [request_of sample_manager GET
                ("/api/graph/path?from=" +:+ encode_bytes "A"
                 +:+ "&to=" +:+ encode_bytes "B"
                 +:+ "&maxDepth=" +:+ number_to_string (NInt 5)) None].
Proof.
  apply (findPath_url remote_empty_payload sample_manager "A" "B" (NInt 5) []).
  reflexivity.
Defined.

(** C5 as stated fails when the supplied [maxDepth] is 0: the URL carries
    no [maxDepth] parameter. *)
Lemma findPath_zero_maxDepth_dropped :
  snd (run (findPath remote_empty_payload sample_manager (VStr "A") (VStr "B")
              (VNum (NInt 0))))
  = [request_of sample_manager GET "/api/graph/path?from=A&to=B" None]
  /\ "/api/graph/path?from=A&to=B" <> "/api/graph/path?from=A&to=B&maxDepth=0".
Proof. split; [reflexivity|discriminate]. Qed.

Example path_request_depth_5 :
  snd (run (findPath remote_empty_payload sample_manager (VStr "Person 1")
              (VStr "Company1") (VNum (NInt 5))))
  = [request_of sample_manager GET
       "/api/graph/path?from=Person%201&to=Company1&maxDepth=5" None].
Proof. reflexivity. Qed.

(** C9.  A falsy [maxDepth] number (0, -0 or NaN) makes [findPath] behave
    exactly as when [maxDepth] is not given, and what it does then is
    this: once [from] and [to] are encoded it sends the one request
    [GET /api/graph/path?from=..&to=..], whose URL has no [maxDepth]
    parameter, and ends as that request ends. *)
Theorem findPath_falsy_maxDepth (remote : request -> net_result)
    (this : KnowledgeGraphManager) (from to : value) (n : number)
    (log : list request) :
  truthy (VNum n) = false ->
  findPath remote this from to (VNum n) log
  = findPath remote this from to VUndefined log
  /\ findPath remote this from to (VNum n) log
     = match encodeURIComponent from with
       | Threw e => (Threw (handleError e), log)
       | Returned f =>
           match encodeURIComponent to with
           | Threw e => (Threw (handleError e), log)
           | Returned t =>
               (settled remote
                  (fun body => obind (get body "data") (fun d => get d "path"))
                  (request_of this GET
                     ("/api/graph/path?from=" +:+ f +:+ "&to=" +:+ t) None),
                log ++ [request_of this GET
                          ("/api/graph/path?from=" +:+ f +:+ "&to=" +:+ t) None])
           end
       end.
Proof.
  intros Hn. unfold findPath. rewrite Hn. split; [reflexivity|].
  io_unfold. cbn [truthy].
  destruct (encodeURIComponent from) as [f|e]; [|reflexivity].
  destruct (encodeURIComponent to) as [t|e]; [|reflexivity].
  repeat (cbn [obind]; io_step); reflexivity.
Qed.

Lemma findPath_falsy_maxDepth_witness :
  findPath remote_empty_payload sample_manager (VStr "A") (VStr "B") (VNum (NInt 0)) []
  = findPath remote_empty_payload sample_manager (VStr "A") (VStr "B") VUndefined []
  /\ findPath remote_empty_payload sample_manager (VStr "A") (VStr "B")
       (VNum (NInt 0)) []
     = (Returned VUndefined,
        [request_of sample_manager GET "/api/graph/path?from=A&to=B" None]).
Proof.
  apply (findPath_falsy_maxDepth remote_empty_payload sample_manager
           (VStr "A") (VStr "B") (NInt 0) []).
  reflexivity.
Defined.

Example path_request_large_depth :
  snd (run (findPath remote_empty_payload sample_manager (VStr "A") (VStr "B")
              (VNum (NInt (10 ^ 21)))))
  = [request_of sample_manager GET "/api/graph/path?from=A&to=B&maxDepth=1e+21" None].
Proof. reflexivity. Qed.

Example path_request_fractional_depth :
  snd (run (findPath remote_empty_payload sample_manager (VStr "A") (VStr "B")
              (VNum (NFinite false 25 1))))
  = [request_of sample_manager GET "/api/graph/path?from=A&to=B&maxDepth=2.5" None].
Proof. reflexivity. Qed.

Example falsy_numbers :
  truthy (VNum (NInt 0)) = false /\ truthy (VNum NNegZero) = false
  /\ truthy (VNum NNaN) = false.
Proof. repeat split. Qed.

(** ** Claims about start-up and the client configuration *)

Lemma load_config_cases (env : gmap string string) :
  ((env !! "MEMORY_API_KEY" = None \/ env !! "MEMORY_API_KEY" = Some "")
   /\ load_config env = Threw key_required)
  \/ exists k,
       env !! "MEMORY_API_KEY" = Some k /\ k <> ""
       /\ load_config env
          = Returned {| API_KEY := k;
                        API_BASE_URL :=
                          match env !! "MEMORY_API_URL" with
                          | Some url => if truthy_string url then url
                                        else "http://localhost:3000"
                          | None => "http://localhost:3000"
                          end |}.
Proof.
  unfold load_config. destruct (env !! "MEMORY_API_KEY") as [[|c k]|].
  - left. auto.
  - right. exists (String c k). repeat split. discriminate.
  - left. auto.
Qed.

(** C6 (as amended).  When the credential variable is absent, or set to
    the empty string, start-up throws before the manager and the server
    exist and no call-tool request is ever served; when it is set to a
    non-empty string, start-up yields the process with its manager. *)
Theorem start_credential (env : gmap string string) :
  ((env !! "MEMORY_API_KEY" = None \/ env !! "MEMORY_API_KEY" = Some "")
   /\ start env = Threw (Error "MEMORY_API_KEY environment variable is required")
   /\ forall remote tool_name args, serve env remote tool_name args = None)
  \/ exists k p,
       env !! "MEMORY_API_KEY" = Some k /\ k <> ""
       /\ start env = Returned p
       /\ In ("Authorization", "Bearer " +:+ k) (headers (api (manager p)))
       /\ forall remote tool_name args,
            serve env remote tool_name args
            = Some (run (CallTool remote (manager p) tool_name args)).
Proof.
  destruct (load_config_cases env) as [[Hk Hc] | (k & Hk & Hne & Hc)].
  - left. split; [exact Hk|]. unfold serve, start. rewrite Hc. auto.
  - right. unfold serve, start. rewrite Hc. cbn [obind].
    eexists k, _. repeat split; auto. now left.
Qed.

(** C6 as stated fails when the variable is present but empty. *)
Lemma start_empty_credential :
  ({[ "MEMORY_API_KEY" := "" ]} : gmap string string) !! "MEMORY_API_KEY" = Some ""
  /\ start {[ "MEMORY_API_KEY" := "" ]}
     = Threw (Error "MEMORY_API_KEY environment variable is required")
  /\ forall remote tool_name args,
       serve {[ "MEMORY_API_KEY" := "" ]} remote tool_name args = None.
Proof. repeat split. Qed.

Example start_sample :
  start sample_env
  = Returned {| manager := sample_manager;
                server_name := "memory-mongo-server"; server_version := "1.0.0" |}.
Proof. reflexivity. Qed.



(** X20.  Over the whole life of a process, every request of every
    call-tool request it serves carries the headers and the base address
    of the one client built at start-up, with the credential read then. *)
Lemma session_requests_configured (env : gmap string string) (p : process)
    (calls : list ((request -> net_result) * string * option obj)) (r : request) :
  start env = Returned p ->
  In r (session p calls) ->
  req_headers r = headers (api (manager p))
  /\ req_baseURL r = baseURL (api (manager p))
  /\ exists k, env !! "MEMORY_API_KEY" = Some k
               /\ headers (api (manager p))
                  = [("Authorization", "Bearer " +:+ k);
                     ("Content-Type", "application/json")].
Proof.
  intros Hstart Hin. unfold session in Hin.
  apply in_flat_map in Hin as ([[remote tool_name] args] & _ & Hin).
  assert (Hr : req_headers r = headers (api (manager p))
               /\ req_baseURL r = baseURL (api (manager p))).
  { destruct args as [args|]; [|destruct Hin].
    unfold run in Hin. rewrite CallTool_present, dispatch_routes in Hin.
    destruct (operation_for tool_name args) as [op|]; [|destruct Hin].
    unfold bind in Hin.
    destruct (perform_requests remote (manager p) op [])
      as [Hsame | (m & url & data & Hsent)];
      destruct (perform remote (manager p) op []) as [[v|e] l];
      cbn [snd] in *; subst l; try destruct Hin as [<- | []]; try destruct Hin.
    all: split; reflexivity. }
  destruct Hr as [Hh Hb]. split; [exact Hh|]. split; [exact Hb|].
  unfold start in Hstart.
  destruct (load_config_cases env) as [[_ Hc] | (k & Hk & _ & Hc)];
    rewrite Hc in Hstart; [discriminate|].
  injection Hstart as <-. exists k. split; [exact Hk|reflexivity].
Qed.

Example base_address_override :
  start {[ "MEMORY_API_KEY" := "k"; "MEMORY_API_URL" := "https://memory.example" ]}
  = Returned {| manager := {| api := {| baseURL := "https://memory.example";
                                        headers := [("Authorization", "Bearer k");
                                                    ("Content-Type", "application/json")] |} |};
                server_name := "memory-mongo-server"; server_version := "1.0.0" |}.
Proof. reflexivity. Qed.

(** ** Claims about the envelopes of present-argument calls *)

Lemma rendered_undefined (op : operation) (r : value) :
  rendered op r = None <-> confirmation op = None /\ r = VUndefined.
Proof.
  unfold rendered, JSON_stringify. destruct (confirmation op) as [msg|].
  - split; [discriminate|]. intros [H _]. discriminate H.
  - rewrite serialize_undefined. tauto.
Qed.

(** C4 (as amended).  A call with an argument object always returns an
    envelope with one text item.  Either [isError] is absent, the routed
    operation returned a result and the text is the fixed confirmation (for
    the three deletions) or [JSON.stringify(result, null, 2)] (for the
    others), which is a string unless the result is [undefined]; or
    [isError] is [true] and the [try] block failed. *)
Theorem CallTool_envelope (remote : request -> net_result)
    (mgr : KnowledgeGraphManager) (tool_name : string) (args : obj)
    (log log' : list request) (res : CallToolResult) :
  CallTool remote mgr tool_name (Some args) log = (Returned res, log') ->
  (exists op r,
     operation_for tool_name args = Some op
     /\ perform remote mgr op log = (Returned r, log')
     /\ res = {| content := [{| type := "text"; text := rendered op r |}];
                 isError := None |}
     /\ (confirmation op = None -> rendered op r = JSON_stringify r)
     /\ (rendered op r = None <-> confirmation op = None /\ r = VUndefined))
  \/ (exists e t,
        dispatch remote mgr tool_name args log = (Threw e, log')
        /\ res = {| content := [{| type := "text"; text := Some t |}];
                    isError := Some true |}).
Proof.
  rewrite CallTool_present.
  destruct (dispatch remote mgr tool_name args log) as [[res0|e] l] eqn:Hd.
  - intros [= -> ->]. left.
    rewrite dispatch_routes in Hd.
    destruct (operation_for tool_name args) as [op|]; [|discriminate].
    unfold bind in Hd.
    destruct (perform remote mgr op log) as [[r|e] l] eqn:Hp; [|discriminate].
    injection Hd as <- <-. exists op, r.
    split; [reflexivity|]. split; [exact Hp|]. split; [reflexivity|]. split.
    + intros Hc. unfold rendered. now rewrite Hc.
    + apply rendered_undefined.
  - intros [= <- <-]. right. exists e.
    unfold on_error. destruct (instanceof_Error e); eexists; split; reflexivity.
Qed.

Lemma CallTool_envelope_witness :
  (exists op r,
     operation_for "create_entities" [("entities", VArr [person1])] = Some op
     /\ perform remote_echo sample_manager op [] 
        = (Returned r, [request_of sample_manager POST "/api/entities"
                          (Some (VObj [("entities", VArr [person1])]))])
     /\ text_content (JSON_stringify (VArr [person1]))
        = {| content := [{| type := "text"; text := rendered op r |}];
             isError := None |}
     /\ (confirmation op = None -> rendered op r = JSON_stringify r)
     /\ (rendered op r = None <-> confirmation op = None /\ r = VUndefined))
  \/ (exists e t,
        dispatch remote_echo sample_manager "create_entities"
          [("entities", VArr [person1])] []
        = (Threw e, [request_of sample_manager POST "/api/entities"
                       (Some (VObj [("entities", VArr [person1])]))])
        /\ text_content (JSON_stringify (VArr [person1]))
           = {| content := [{| type := "text"; text := Some t |}];
                isError := Some true |}).
Proof.
  apply (CallTool_envelope remote_echo sample_manager "create_entities"
           [("entities", VArr [person1])] []).
  reflexivity.
Defined.

(** C4 as stated fails when the service answers success with a payload
    that lacks the expected field: the call succeeds, [isError] is absent,
    and [text] is [undefined] rather than a string. *)
Lemma CallTool_success_without_text :
  run (CallTool remote_empty_payload sample_manager "create_entities"
         (Some [("entities", VArr [])]))
  = (Returned {| content := [{| type := "text"; text := None |}];
                 isError := None |},
     [request_of sample_manager POST "/api/entities"
        (Some (VObj [("entities", VArr [])]))]).
Proof. reflexivity. Qed.

(** C8.  For a registered tool and any argument object, whatever its
    fields: the handler routes to the operation of the table with the
    fields read off the object as they are (absent ones as [undefined]),
    returns an envelope, never throws, sends what the operation sends, and
    when the operation's request is rejected the envelope is the error
    envelope with the message [handleError] made of the rejection. *)
Theorem CallTool_malformed_arguments (remote : request -> net_result)
    (mgr : KnowledgeGraphManager) (tool_name : string) (args : obj)
    (log : list request) :
  In tool_name tool_names ->
  exists op res,
    operation_for tool_name args = Some op
    /\ CallTool remote mgr tool_name (Some args) log
       = (Returned res, snd (perform remote mgr op log))
    /\ forall r e,
         snd (perform remote mgr op log) = log ++ [r] ->
         remote r = Rejected e ->
         res = {| content := [{| type := "text";
                                 text := Some ("Error: " +:+ message_of (handleError e)) |}];
                  isError := Some true |}.
Proof.
  intros Hin.
  destruct (operation_for_registered tool_name args Hin) as [op Hop].
  pose proof (perform_rejected remote mgr op log) as Hrej.
  rewrite CallTool_present, (dispatch_routed remote mgr _ _ _ log Hop).
  destruct (perform remote mgr op log) as [[v|e0] l] eqn:Hp.
  - exists op, (text_content (rendered op v)).
    rewrite Hp. split; [exact Hop|]. split; [reflexivity|].
    intros r e Hl Hr. specialize (Hrej r e Hl Hr). discriminate Hrej.
  - exists op, (on_error e0).
    rewrite Hp. split; [exact Hop|]. split; [reflexivity|].
    intros r e Hl Hr. specialize (Hrej r e Hl Hr).
    injection Hrej as ->.
    destruct (handleError_is_Error e) as [m ->]. reflexivity.
Qed.

Lemma CallTool_malformed_arguments_witness :
  exists op res,
    operation_for "search_nodes" [("entities", VNum (NInt 7))] = Some op
    /\ CallTool (remote_rejecting "400" "query is required") sample_manager
         "search_nodes" (Some [("entities", VNum (NInt 7))]) []
       = (Returned res,
          snd (perform (remote_rejecting "400" "query is required")
                 sample_manager op []))
    /\ forall r e,
         snd (perform (remote_rejecting "400" "query is required")
                sample_manager op []) = [] ++ [r] ->
         remote_rejecting "400" "query is required" r = Rejected e ->
         res = {| content := [{| type := "text";
                                 text := Some ("Error: " +:+ message_of (handleError e)) |}];
                  isError := Some true |}.
Proof.
  apply (CallTool_malformed_arguments (remote_rejecting "400" "query is required")
           sample_manager "search_nodes" [("entities", VNum (NInt 7))] []).
  vm_compute. tauto.
Defined.

(** [search_nodes] without [query]: the absent field travels as
    [undefined] and the rejection comes back as an ordinary error
    envelope. *)
Example search_nodes_without_query :
  operation_for "search_nodes" [] = Some (SearchNodes VUndefined)
  /\ run (CallTool (remote_rejecting "400" "query is required") sample_manager
            "search_nodes" (Some []))
     = (Returned (error_content "Error: query is required"),
        [request_of sample_manager GET "/api/search?query=undefined" None]).
Proof. split; reflexivity. Qed.

(** [create_entities] with [entities] of the wrong shape: forwarded as it
    is. *)
Example create_entities_wrong_shape :
  run (CallTool (remote_rejecting "400" "entities must be an array") sample_manager
         "create_entities" (Some [("entities", VStr "oops")]))
  = (Returned (error_content "Error: entities must be an array"),
     [request_of sample_manager POST "/api/entities"
        (Some (VObj [("entities", VStr "oops")]))]).
Proof. reflexivity. Qed.

(** A field that cannot be turned into a string fails inside the Facade,
    before any request, and still comes back as an envelope. *)
Example search_nodes_unprintable_query :
  run (CallTool remote_empty_payload sample_manager "search_nodes"
         (Some [("query", VObj [("toString", VNull)])]))
  = (Returned (error_content "Error: Cannot convert object to primitive value"), []).
Proof. reflexivity. Qed.

(** The create-entities scenario. *)
Example create_entities_person1 :
  exists s,
    run (CallTool remote_echo sample_manager "create_entities"
           (Some [("entities", VArr [person1])]))
    = (Returned (text_content (Some s)),
       [request_of sample_manager POST "/api/entities"
          (Some (VObj [("entities", VArr [person1])]))])
    /\ JSON_stringify (VArr [person1]) = Some s.
Proof. eexists. split; reflexivity. Qed.

(** * Further properties of the module *)

(** ** The Facade as a pipeline *)

Lemma perform_plan (remote : request -> net_result) (this : KnowledgeGraphManager)
    (op : operation) (log : list request) :
  perform remote this op log
  = match prepared this op with
    | Returned r => (settled remote (unwrap op) r, log ++ [r])
    | Threw e => (Threw (handleError e), log)
    end.
Proof.
  destruct op; cbn [perform prepared];
    unfold unwrap; cbn [payload_path walk];
    unfold checkHealth, createEntities, createRelations, addObservations,
      deleteEntities, deleteObservations, deleteRelations, readGraph,
      searchNodes, openNodes, getPatterns, getTemporalGraph, findPath;
    io_unfold;
    repeat match goal with
           | |- context [truthy ?v] => destruct (truthy v)
           | |- context [encodeURIComponent ?v] =>
               destruct (encodeURIComponent v); cbn [obind]
           | |- context [ToString ?v] => destruct (ToString v); cbn [obind]
           end;
    repeat (cbn [obind]; io_step); reflexivity.
Qed.

Lemma handleError_Error (m : string) : handleError (Error m) = Error m.
Proof. reflexivity. Qed.

Lemma walk_throws (path : list string) (v : value) (e : thrown) :
  walk path v = Threw e -> exists m, e = Error m.
Proof.
  revert v. induction path as [|k rest IH]; intros v; cbn [walk]; [discriminate|].
  destruct (get v k) as [w|e'] eqn:Hg; cbn [obind].
  - apply IH.
  - intros [= <-]. destruct v; try discriminate Hg; injection Hg as <-;
      unfold cannot_read; eauto.
Qed.

Lemma unwrap_throws (op : operation) (body : value) (e : thrown) :
  unwrap op body = Threw e -> exists m, e = Error m.
Proof.
  unfold unwrap. destruct (payload_path op); [apply walk_throws|discriminate].
Qed.

(** What a fulfilled request comes to: the unwrapped payload, or the
    [TypeError] of the unwrapping, unchanged. *)
Lemma settled_fulfilled (remote : request -> net_result) (op : operation)
    (r : request) (body : value) :
  remote r = Fulfilled body ->
  settled remote (unwrap op) r = unwrap op body.
Proof.
  intros Hr. unfold settled. rewrite Hr.
  destruct (unwrap op body) as [v|e] eqn:Hu; [reflexivity|].
  destruct (unwrap_throws _ _ _ Hu) as [m ->]. reflexivity.
Qed.

(** X1.  Every method of the manager is the same pipeline: the request is
    prepared first, and a failure there ends the method through
    [handleError] with nothing sent; otherwise exactly that one request is
    sent, a rejection ends the method through [handleError], and a
    fulfilled response is unwrapped along the method's fixed path, a
    failure of the unwrapping being rethrown as it is. *)
Theorem facade_pipeline (remote : request -> net_result)
    (this : KnowledgeGraphManager) (op : operation) (log : list request) :
  perform remote this op log
  = match prepared this op with
    | Threw e => (Threw (handleError e), log)
    | Returned r =>
        (match remote r with
         | Fulfilled body => unwrap op body
         | Rejected e => Threw (handleError e)
         end, log ++ [r])
    end.
Proof.
  rewrite perform_plan. destruct (prepared this op) as [r|e]; [|reflexivity].
  f_equal. destruct (remote r) as [body|e] eqn:Hr.
  - now apply settled_fulfilled.
  - unfold settled. now rewrite Hr.
Qed.

(** X2.  A call-tool request makes at most one request to the service,
    whatever the tool, the arguments and the answer: nothing is retried. *)
Theorem CallTool_at_most_one_request (remote : request -> net_result)
    (mgr : KnowledgeGraphManager) (tool_name : string) (args : option obj) :
  length (snd (run (CallTool remote mgr tool_name args))) <= 1.
Proof.
  unfold run. destruct args as [args|]; [|cbn; lia].
  rewrite CallTool_present, dispatch_routes.
  destruct (operation_for tool_name args) as [op|]; [|cbn; lia].
  unfold bind. rewrite perform_plan.
  destruct (prepared mgr op) as [r|e]; [|cbn; lia].
  destruct (settled remote (unwrap op) r); cbn; lia.
Qed.

(** X3.  When the service fulfils the request with a body that holds a
    value [v] at the method's path ([data], or [data] and then [created],
    [updates], [graph], [patterns] or [path]), the tool call succeeds and
    its text is [JSON.stringify(v, null, 2)]: what the service sent is what
    the host reads. *)
Theorem CallTool_returns_payload (remote : request -> net_result)
    (mgr : KnowledgeGraphManager) (tool_name : string) (args : obj)
    (op : operation) (path : list string) (r : request) (body v : value)
    (log : list request) :
  operation_for tool_name args = Some op ->
  payload_path op = Some path ->
  prepared mgr op = Returned r ->
  remote r = Fulfilled body ->
  walk path body = Returned v ->
  perform remote mgr op log = (Returned v, log ++ [r])
  /\ CallTool remote mgr tool_name (Some args) log
     = (Returned {| content := [{| type := "text"; text := JSON_stringify v |}];
                    isError := None |}, log ++ [r]).
Proof.
  intros Hop Hpath Hprep Hr Hwalk.
  assert (Hp : perform remote mgr op log = (Returned v, log ++ [r])).
  { rewrite perform_plan, Hprep, (settled_fulfilled _ _ _ _ Hr).
    unfold unwrap. now rewrite Hpath, Hwalk. }
  split; [exact Hp|].
  rewrite CallTool_present, (dispatch_routed _ _ _ _ _ log Hop), Hp.
  unfold rendered. destruct op; try discriminate Hpath; reflexivity.
Qed.

Lemma CallTool_returns_payload_witness :
  perform remote_echo sample_manager (CreateEntities (VArr [person1])) []
  = (Returned (VArr [person1]),
     [] ++ [request_of sample_manager POST "/api/entities"
              (Some (VObj [("entities", VArr [person1])]))])
  /\ CallTool remote_echo sample_manager "create_entities"
       (Some [("entities", VArr [person1])]) []
     = (Returned {| content := [{| type := "text";
                                   text := JSON_stringify (VArr [person1]) |}];
                    isError := None |},
        [] ++ [request_of sample_manager POST "/api/entities"
                 (Some (VObj [("entities", VArr [person1])]))]).
Proof.
  apply (CallTool_returns_payload remote_echo sample_manager "create_entities"
           [("entities", VArr [person1])] (CreateEntities (VArr [person1]))
           ["data"; "created"]
           (request_of sample_manager POST "/api/entities"
              (Some (VObj [("entities", VArr [person1])])))
           (VObj [("success", VBool true);
                  ("data", VObj [("created", VArr [person1])])]));
    reflexivity.
Defined.

Lemma unwrap_ignores_success (op : operation) (s1 s2 : value) (rest : obj) :
  unwrap op (VObj (("success", s1) :: rest))
  = unwrap op (VObj (("success", s2) :: rest)).
Proof.
  unfold unwrap. destruct (payload_path op) as [path|] eqn:Hp; [|reflexivity].
  destruct op; try discriminate Hp; injection Hp as <-; reflexivity.
Qed.

(** X4.  The [success] flag of a fulfilled response is never looked at:
    two services whose answers differ only in that flag give every method
    the same result and see the same requests. *)
Theorem success_flag_ignored (this : KnowledgeGraphManager) (op : operation)
    (flag1 flag2 : request -> value) (answer : request -> obj)
    (log : list request) :
  perform (fun r => Fulfilled (VObj (("success", flag1 r) :: answer r))) this op log
  = perform (fun r => Fulfilled (VObj (("success", flag2 r) :: answer r))) this op log.
Proof.
  rewrite !perform_plan. destruct (prepared this op) as [r|e]; [|reflexivity].
  rewrite (settled_fulfilled _ op r (VObj (("success", flag1 r) :: answer r)) eq_refl).
  rewrite (settled_fulfilled _ op r (VObj (("success", flag2 r) :: answer r)) eq_refl).
  now rewrite (unwrap_ignores_success op (flag1 r) (flag2 r)).
Qed.

(** X5.  A deletion tool always sends its request, and reports success as
    soon as that request is fulfilled, whatever the body of the response:
    the text is the tool's fixed confirmation. *)
Theorem deletion_confirmed_on_any_body (remote : request -> net_result)
    (mgr : KnowledgeGraphManager) (tool_name : string) (args : obj)
    (op : operation) (msg : string) (log : list request) :
  operation_for tool_name args = Some op ->
  confirmation op = Some msg ->
  exists r,
    prepared mgr op = Returned r
    /\ snd (CallTool remote mgr tool_name (Some args) log) = log ++ [r]
    /\ forall body,
         remote r = Fulfilled body ->
         CallTool remote mgr tool_name (Some args) log
         = (Returned {| content := [{| type := "text"; text := Some msg |}];
                        isError := None |}, log ++ [r]).
Proof.
  intros Hop Hmsg.
  rewrite CallTool_present, (dispatch_routed _ _ _ _ _ log Hop), perform_plan.
  destruct op; try discriminate Hmsg; cbn [prepared]; eexists;
    (split; [reflexivity|]); (split; [destruct (settled _ _ _); reflexivity|]);
    intros body Hr; rewrite (settled_fulfilled _ _ _ _ Hr);
    unfold unwrap, rendered; cbn [payload_path confirmation];
    injection Hmsg as <-; reflexivity.
Qed.

Lemma deletion_confirmed_on_any_body_witness :
  exists r,
    prepared sample_manager (DeleteEntities (VArr [VStr "Person1"])) = Returned r
    /\ snd (CallTool (fun _ => Fulfilled (VObj [("success", VBool false)]))
              sample_manager "delete_entities"
              (Some [("entityNames", VArr [VStr "Person1"])]) []) = [] ++ [r]
    /\ forall body,
         (fun _ : request => Fulfilled (VObj [("success", VBool false)])) r
         = Fulfilled body ->
         CallTool (fun _ => Fulfilled (VObj [("success", VBool false)]))
           sample_manager "delete_entities"
           (Some [("entityNames", VArr [VStr "Person1"])]) []
         = (Returned {| content := [{| type := "text";
                                       text := Some "Entities deleted successfully" |}];
                        isError := None |}, [] ++ [r]).
Proof.
  apply (deletion_confirmed_on_any_body
           (fun _ => Fulfilled (VObj [("success", VBool false)]))
           sample_manager "delete_entities"
           [("entityNames", VArr [VStr "Person1"])]
           (DeleteEntities (VArr [VStr "Person1"]))
           "Entities deleted successfully" []); reflexivity.
Defined.

(** X6.  When the response is fulfilled but its body has no [data] (the
    body is an object without that key, or a string, number, boolean or
    array), a method that reads a field of [data] fails with the
    [TypeError] of reading that field of [undefined], and the tool call
    returns it as an error envelope. *)
Theorem missing_data_is_an_error (remote : request -> net_result)
    (mgr : KnowledgeGraphManager) (tool_name : string) (args : obj)
    (op : operation) (field : string) (r : request) (body : value)
    (log : list request) :
  operation_for tool_name args = Some op ->
  payload_path op = Some ["data"; field] ->
  prepared mgr op = Returned r ->
  remote r = Fulfilled body ->
  get body "data" = Returned VUndefined ->
  perform remote mgr op log
  = (Threw (Error ("Cannot read properties of undefined (reading '"
                   +:+ field +:+ "')")), log ++ [r])
  /\ CallTool remote mgr tool_name (Some args) log
     = (Returned {| content :=
                      [{| type := "text";
                          text := Some ("Error: Cannot read properties of undefined (reading '"
                                        +:+ field +:+ "')") |}];
                    isError := Some true |}, log ++ [r]).
Proof.
  intros Hop Hpath Hprep Hr Hdata.
  assert (Hp : perform remote mgr op log
               = (Threw (cannot_read "undefined" field), log ++ [r])).
  { rewrite perform_plan, Hprep, (settled_fulfilled _ _ _ _ Hr).
    unfold unwrap. rewrite Hpath. cbn [walk]. rewrite Hdata. reflexivity. }
  split; [exact Hp|].
  rewrite CallTool_present, (dispatch_routed _ _ _ _ _ log Hop), Hp.
  reflexivity.
Qed.

Lemma missing_data_is_an_error_witness :
  perform (fun _ => Fulfilled (VStr "")) sample_manager (OpenNodes (VArr [])) []
  = (Threw (Error ("Cannot read properties of undefined (reading '"
                   +:+ "graph" +:+ "')")),
     [] ++ [request_of sample_manager POST "/api/nodes" (Some (VObj [("names", VArr [])]))])
  /\ CallTool (fun _ => Fulfilled (VStr "")) sample_manager "open_nodes"
       (Some [("names", VArr [])]) []
     = (Returned {| content :=
                      [{| type := "text";
                          text := Some ("Error: Cannot read properties of undefined (reading '"
                                        +:+ "graph" +:+ "')") |}];
                    isError := Some true |},
        [] ++ [request_of sample_manager POST "/api/nodes"
                 (Some (VObj [("names", VArr [])]))]).
Proof.
  apply (missing_data_is_an_error (fun _ => Fulfilled (VStr "")) sample_manager
           "open_nodes" [("names", VArr [])] (OpenNodes (VArr [])) "graph"
           (request_of sample_manager POST "/api/nodes"
              (Some (VObj [("names", VArr [])])))
           (VStr "")); reflexivity.
Defined.

(** X7.  The text of every error envelope the handler returns starts with
    "Error: ": whatever fails inside the [try] is an [Error] instance by
    the time it reaches the [catch], so the bare "An unknown error
    occurred" envelope is never returned. *)
Theorem error_envelope_prefixed (remote : request -> net_result)
    (mgr : KnowledgeGraphManager) (tool_name : string) (args : obj)
    (log log' : list request) (res : CallToolResult) :
  CallTool remote mgr tool_name (Some args) log = (Returned res, log') ->
  isError res = Some true ->
  exists m, res = {| content := [{| type := "text"; text := Some ("Error: " +:+ m) |}];
                     isError := Some true |}.
Proof.
  rewrite CallTool_present.
  destruct (dispatch remote mgr tool_name args log) as [[res0|e] l] eqn:Hd.
  - intros [= -> ->] Herr. rewrite dispatch_routes in Hd.
    destruct (operation_for tool_name args) as [op|]; [|discriminate].
    unfold bind in Hd. destruct (perform remote mgr op log) as [[v|e] l0];
      [|discriminate].
    injection Hd as <- _. discriminate Herr.
  - intros [= <- <-] _.
    destruct (dispatch_throws_Error _ _ _ _ _ _ _ Hd) as [m ->].
    exists m. reflexivity.
Qed.

Lemma error_envelope_prefixed_witness :
  exists m,
    error_content "Error: An unknown error occurred"
    = {| content := [{| type := "text"; text := Some ("Error: " +:+ m) |}];
         isError := Some true |}.
Proof.
  apply (error_envelope_prefixed (fun _ => Rejected (NonError VNull)) sample_manager
           "read_graph" [] []
           [request_of sample_manager GET "/api/graph" None]);
    reflexivity.
Defined.

(** X8.  From the service to the host: when the request of a tool call is
    rejected with [e] and [m] is the message that [e] surfaces (the
    server's non-empty [error] string, else the transport's message), the
    tool call returns the error envelope whose text is "Error: " followed
    by [m]. *)
Theorem rejection_reaches_host (remote : request -> net_result)
    (mgr : KnowledgeGraphManager) (tool_name : string) (args : obj)
    (op : operation) (r : request) (e : thrown) (m : string)
    (log : list request) :
  operation_for tool_name args = Some op ->
  prepared mgr op = Returned r ->
  remote r = Rejected e ->
  surfaced e m ->
  CallTool remote mgr tool_name (Some args) log
  = (Returned {| content := [{| type := "text"; text := Some ("Error: " +:+ m) |}];
                 isError := Some true |}, log ++ [r]).
Proof.
  intros Hop Hprep Hr Hm.
  rewrite CallTool_present, (dispatch_routed _ _ _ _ _ log Hop), perform_plan, Hprep.
  unfold settled. rewrite Hr, (handleError_surfaced _ _ Hm). reflexivity.
Qed.

Lemma rejection_reaches_host_witness :
  CallTool (fun _ => Rejected (AxiosError None "connect ECONNREFUSED 127.0.0.1:3000"))
    sample_manager "read_graph" (Some []) []
  = (Returned {| content :=
                   [{| type := "text";
                       text := Some ("Error: " +:+ "connect ECONNREFUSED 127.0.0.1:3000") |}];
                 isError := Some true |},
     [] ++ [request_of sample_manager GET "/api/graph" None]).
Proof.
  apply (rejection_reaches_host
           (fun _ => Rejected (AxiosError None "connect ECONNREFUSED 127.0.0.1:3000"))
           sample_manager "read_graph" [] ReadGraph
           (request_of sample_manager GET "/api/graph" None)
           (AxiosError None "connect ECONNREFUSED 127.0.0.1:3000")).
  - reflexivity.
  - reflexivity.
  - reflexivity.
  - apply (surfaced_transport None _ VUndefined); reflexivity.
Defined.

(** X9.  [handleError] is idempotent: what it throws is an [Error] that a
    second pass would rethrow unchanged. *)
Theorem handleError_idempotent (error : thrown) :
  handleError (handleError error) = handleError error.
Proof.
  destruct (handleError_is_Error error) as [m ->]. reflexivity.
Qed.

(** ** The handler and the registry *)

Ltac route_literal :=
  cbv beta iota delta [operation_for routes assoc String.eqb Ascii.eqb Bool.eqb].

(** X10.  The handler reads nothing of the argument object but the
    top-level properties the registry declares for the tool: two argument
    objects that agree on those give the same call, request for request. *)
Theorem handler_reads_declared_properties (remote : request -> net_result)
    (mgr : KnowledgeGraphManager) (t : tool) (args1 args2 : obj)
    (log : list request) :
  In t tools ->
  (forall k, In k (properties t) -> arg args1 k = arg args2 k) ->
  CallTool remote mgr (name t) (Some args1) log
  = CallTool remote mgr (name t) (Some args2) log.
Proof.
  intros Hin Hagree. rewrite !CallTool_present, !dispatch_routes.
  unfold tools in Hin. cbn [In] in Hin.
  repeat (destruct Hin as [<- | Hin]); [..|destruct Hin];
    cbn [name properties] in *; route_literal;
    repeat match goal with
           | |- context [arg args1 ?k] =>
               rewrite (Hagree k) by (cbn [In]; tauto)
           end;
    reflexivity.
Qed.

Lemma handler_reads_declared_properties_witness :
  CallTool remote_echo sample_manager "create_entities"
    (Some [("entities", VArr [person1]); ("dryRun", VBool true)]) []
  = CallTool remote_echo sample_manager "create_entities"
      (Some [("entities", VArr [person1])]) [].
Proof.
  apply (handler_reads_declared_properties remote_echo sample_manager
           {| name := "create_entities";
              description := "Create multiple new entities in the knowledge graph";
              properties := ["entities"]; required := ["entities"] |}
           [("entities", VArr [person1]); ("dryRun", VBool true)]
           [("entities", VArr [person1])] []).
  - right. left. reflexivity.
  - intros k [<- | []]. reflexivity.
Defined.

(** X11.  [getPatterns] puts the category into the URL as it is, without
    percent-encoding, and treats an empty category like an absent one. *)
Theorem getPatterns_url (remote : request -> net_result)
    (this : KnowledgeGraphManager) (category : string) (log : list request) :
  snd (getPatterns remote this VUndefined log)
  = log ++ [request_of this GET "/api/patterns" None]
  /\ snd (getPatterns remote this (VStr category) log)
     = log ++ [request_of this GET
                 (if truthy_string category
                  then "/api/patterns?category=" +:+ category
                  else "/api/patterns") None].
Proof.
  pose proof (perform_plan remote this (GetPatterns VUndefined) log) as Hu.
  pose proof (perform_plan remote this (GetPatterns (VStr category)) log) as Hs.
  cbn [perform prepared truthy ToString obind] in Hu, Hs.
  rewrite Hu, Hs. split; [reflexivity|].
  destruct category; reflexivity.
Qed.

(** ** The two revisions *)

(** X12.  The two revisions of [handleError] throw the same [Error] for
    every failure: substituting an empty object for a missing body and
    reading the body through [?.] come to the same message. *)
Theorem handleError_revisions_agree (error : thrown) :
  V1.handleError error = handleError error.
Proof.
  destruct error as [[data|] msg | msg | v]; try reflexivity.
  unfold V1.handleError, handleError. cbn [isAxiosError response_data message_of].
  destruct data as [ | | [|] | [ | | |b|neg d pt] | [|c s] | items | props];
    reflexivity.
Qed.

Lemma V1_catch_handleError {A} (body : io A) (log : list request) :
  V1.catch_handleError body log = catch_handleError body log.
Proof.
  unfold V1.catch_handleError, catch_handleError, try_catch, throw.
  destruct (body log) as [[a|e] l]; [reflexivity|].
  now rewrite handleError_revisions_agree.
Qed.

Lemma V1_dispatch_registered (remote : request -> net_result)
    (mgr : KnowledgeGraphManager) (tool_name : string) (args : obj)
    (log : list request) :
  In tool_name V1.tool_names ->
  V1.dispatch remote mgr tool_name args log = dispatch remote mgr tool_name args log.
Proof.
  intros Hin. unfold V1.tool_names, V1.tools in Hin. cbn [List.map name In] in Hin.
  repeat (destruct Hin as [<- | Hin]); [..|destruct Hin];
    cbv beta iota delta [V1.dispatch dispatch String.eqb Ascii.eqb Bool.eqb];
    unfold stringified, then_say, bind;
    unfold V1.createEntities, V1.createRelations, V1.addObservations,
      V1.deleteEntities, V1.deleteObservations, V1.deleteRelations,
      V1.readGraph, V1.searchNodes, V1.openNodes,
      createEntities, createRelations, addObservations,
      deleteEntities, deleteObservations, deleteRelations,
      readGraph, searchNodes, openNodes;
    rewrite V1_catch_handleError; reflexivity.
Qed.

(** X13.  On the nine tools of the earlier revision the later handler
    behaves exactly as the earlier one did, for every argument object and
    every answer of the service. *)
Theorem revisions_agree_on_old_tools (remote : request -> net_result)
    (mgr : KnowledgeGraphManager) (tool_name : string) (args : option obj)
    (log : list request) :
  In tool_name V1.tool_names ->
  In tool_name tool_names
  /\ V1.CallTool remote mgr tool_name args log = CallTool remote mgr tool_name args log.
Proof.
  intros Hin. split.
  - unfold V1.tool_names, V1.tools in Hin. cbn [List.map name In] in Hin.
    repeat (destruct Hin as [<- | Hin]); [..|destruct Hin]; cbn; tauto.
  - destruct args as [args|]; [|reflexivity].
    rewrite CallTool_present. unfold V1.CallTool, try_catch.
    now rewrite V1_dispatch_registered.
Qed.

Lemma revisions_agree_on_old_tools_witness :
  In "search_nodes" tool_names
  /\ V1.CallTool remote_empty_payload sample_manager "search_nodes"
       (Some [("query", VStr "coffee")]) []
     = CallTool remote_empty_payload sample_manager "search_nodes"
         (Some [("query", VStr "coffee")]) [].
Proof.
  apply (revisions_agree_on_old_tools remote_empty_payload sample_manager
           "search_nodes" (Some [("query", VStr "coffee")]) []).
  cbn. tauto.
Defined.

(** X14.  The four tools the later revision adds are unknown to the
    earlier one: it answers them with the unknown-tool envelope and sends
    nothing. *)
Theorem new_tools_unknown_to_V1 (remote : request -> net_result)
    (mgr : KnowledgeGraphManager) (tool_name : string) (args : obj)
    (log : list request) :
  In tool_name ["check_health"; "get_patterns"; "get_temporal_graph"; "find_path"] ->
  In tool_name tool_names
  /\ ~ In tool_name V1.tool_names
  /\ V1.CallTool remote mgr tool_name (Some args) log
     = (Returned {| content := [{| type := "text";
                                   text := Some ("Error: Unknown tool: " +:+ tool_name) |}];
                    isError := Some true |}, log).
Proof.
  intros Hin. cbn [In] in Hin.
  repeat (destruct Hin as [<- | Hin]); [..|destruct Hin];
    (split; [cbn; tauto|]); (split; [cbn; intuition discriminate|]); reflexivity.
Qed.

Lemma new_tools_unknown_to_V1_witness :
  In "find_path" tool_names
  /\ ~ In "find_path" V1.tool_names
  /\ V1.CallTool remote_empty_payload sample_manager "find_path"
       (Some [("from", VStr "A"); ("to", VStr "B")]) []
     = (Returned {| content := [{| type := "text";
                                   text := Some ("Error: Unknown tool: " +:+ "find_path") |}];
                    isError := Some true |}, []).
Proof.
  apply (new_tools_unknown_to_V1 remote_empty_payload sample_manager "find_path"
           [("from", VStr "A"); ("to", VStr "B")] []).
  cbn. tauto.
Defined.

(** ** The entry point *)

(** X15.  How the process ends.  Without a usable credential the module
    throws at top level whatever the transport would have done, and the
    diagnostic of [main] is not printed.  With one, exactly one line goes
    to standard error: the running notice, and the process stays up, when
    the connection is made; "Fatal error in main(): " with the message of
    the failure (or "An unknown error occurred" for a failure that is not
    an [Error]), and exit status 1, when it is not. *)
Theorem program_endings (env : gmap string string) (connect : outcome unit) :
  match start env, connect with
  | Threw e, _ => program env connect = Threw e
  | Returned _, Returned _ =>
      program env connect
      = Returned {| stderr := ["Knowledge Graph MCP Server (MongoDB) running on stdio"];
                    exit_status := None |}
  | Returned _, Threw (NonError _) =>
      program env connect
      = Returned {| stderr := ["Fatal error in main(): An unknown error occurred"];
                    exit_status := Some 1%Z |}
  | Returned _, Threw (AxiosError _ m) | Returned _, Threw (Error m) =>
      program env connect
      = Returned {| stderr := ["Fatal error in main(): " +:+ m];
                    exit_status := Some 1%Z |}
  end.
Proof.
  unfold program. destruct (start env) as [p|e]; [|reflexivity].
  destruct connect as [[]|[r m|m|v]]; reflexivity.
Qed.

(** ** Percent-encoded arguments *)

Lemma all_chars_app (p : ascii -> bool) (a b : string) :
  all_chars p (a +:+ b) = all_chars p a && all_chars p b.
Proof.
  induction a as [|c a IH]; simpl; [reflexivity|].
  rewrite IH. apply andb_assoc.
Qed.

Lemma percent_escape_safe (c : ascii) :
  all_chars uri_safe ("%" +:+ hex2 hex_upper (nat_of_ascii c)) = true.
Proof. destruct c as [[] [] [] [] [] [] [] []]; reflexivity. Qed.

Lemma encode_bytes_safe (s : string) : all_chars uri_safe (encode_bytes s) = true.
Proof.
  induction s as [|c s IH]; [reflexivity|]. cbn [encode_bytes].
  destruct (uri_unescaped c) eqn:Hc.
  - cbn [all_chars]. unfold uri_safe at 1. now rewrite Hc, IH.
  - change ("%" +:+ hex2 hex_upper (nat_of_ascii c) +:+ encode_bytes s)
      with (("%" +:+ hex2 hex_upper (nat_of_ascii c)) +:+ encode_bytes s).
    now rewrite all_chars_app, percent_escape_safe, IH.
Qed.

Lemma hex2_decode (c : ascii) :
  match hex2 hex_upper (nat_of_ascii c) with
  | String h (String l _) => 16 * hex_value h + hex_value l
  | _ => 0
  end = nat_of_ascii c.
Proof. destruct c as [[] [] [] [] [] [] [] []]; reflexivity. Qed.

Lemma hex2_inj (c1 c2 : ascii) :
  hex2 hex_upper (nat_of_ascii c1) = hex2 hex_upper (nat_of_ascii c2) -> c1 = c2.
Proof.
  intros H.
  rewrite <- (ascii_nat_embedding c1), <- (ascii_nat_embedding c2).
  f_equal. rewrite <- (hex2_decode c1), <- (hex2_decode c2). now rewrite H.
Qed.

Lemma two_chars_inv (h1 l1 h2 l2 : ascii) (x y : string) :
  String h1 (String l1 "") +:+ x = String h2 (String l2 "") +:+ y ->
  h1 = h2 /\ l1 = l2 /\ x = y.
Proof.
  intros H. injection H as Hh Hl Hx.
  split; [exact Hh|]. split; [exact Hl|exact Hx].
Qed.

Lemma percent_not_unescaped : uri_unescaped "%" = false.
Proof. reflexivity. Qed.

Lemma append_inv_head (p a b : string) : p +:+ a = p +:+ b -> a = b.
Proof.
  induction p as [|c p IH]; cbn [String.append]; [trivial|].
  intros [= H]. now apply IH.
Qed.

Lemma encode_bytes_inj (a b : string) :
  encode_bytes a = encode_bytes b -> a = b.
Proof.
  revert b. induction a as [|c a IH]; intros [|d b]; cbn [encode_bytes].
  - reflexivity.
  - destruct (uri_unescaped d); discriminate.
  - destruct (uri_unescaped c); discriminate.
  - destruct (uri_unescaped c) eqn:Hc, (uri_unescaped d) eqn:Hd.
    + intros [= -> H]. f_equal. now apply IH.
    + intros [= -> _]. rewrite percent_not_unescaped in Hc. discriminate.
    + intros [= <- _]. rewrite percent_not_unescaped in Hd. discriminate.
    + intros H. apply (append_inv_head "%") in H.
      unfold hex2 in H. apply two_chars_inv in H as (Hh & Hl & H).
      assert (c = d) as -> by (apply hex2_inj; unfold hex2; now rewrite Hh, Hl).
      f_equal. now apply IH.
Qed.

(** Two strings of encoded characters followed by [&] and something end
    at the same place. *)
Lemma split_at_ampersand (a1 a2 b1 b2 : string) :
  all_chars uri_safe a1 = true -> all_chars uri_safe a2 = true ->
  a1 +:+ String "&" b1 = a2 +:+ String "&" b2 ->
  a1 = a2 /\ b1 = b2.
Proof.
  revert a2. induction a1 as [|c a1 IH]; intros [|d a2];
    cbn [String.append all_chars]; intros H1 H2.
  - intros [= ->]. auto.
  - intros [= <- _]. discriminate H2.
  - intros [= -> _]. discriminate H1.
  - apply andb_prop in H1 as [_ H1]. apply andb_prop in H2 as [_ H2].
    intros [= -> H]. destruct (IH _ H1 H2 H) as [-> ->]. auto.
Qed.

(** X16.  The query of [searchNodes] travels percent-encoded: the value
    of the [query] parameter is made of unreserved characters and [%]
    only, so it holds none of [& = ? # /] or a space, and it cannot add to
    or cut short the query string. *)
Theorem search_query_is_encoded (remote : request -> net_result)
    (this : KnowledgeGraphManager) (query : string) (log : list request) :
  exists q,
    snd (searchNodes remote this (VStr query) log)
    = log ++ [request_of this GET ("/api/search?query=" +:+ q) None]
    /\ all_chars uri_safe q = true
    /\ all_chars (fun c => negb (uri_safe c)) "&=?#/ " = true.
Proof.
  exists (encode_bytes query).
  pose proof (perform_plan remote this (SearchNodes (VStr query)) log) as H.
  cbn [perform prepared encodeURIComponent ToString obind] in H. rewrite H.
  split; [reflexivity|]. split; [apply encode_bytes_safe|reflexivity].
Qed.

(** X17.  Different queries give different requests: the URL of
    [searchNodes] determines the query string it was built from. *)
Theorem search_request_unambiguous (remote : request -> net_result)
    (this : KnowledgeGraphManager) (q1 q2 : string) (log : list request) :
  snd (searchNodes remote this (VStr q1) log)
  = snd (searchNodes remote this (VStr q2) log) ->
  q1 = q2.
Proof.
  pose proof (perform_plan remote this (SearchNodes (VStr q1)) log) as H1.
  pose proof (perform_plan remote this (SearchNodes (VStr q2)) log) as H2.
  cbn [perform prepared encodeURIComponent ToString obind] in H1, H2.
  rewrite H1, H2. cbn [snd]. intros H%app_inv_head.
  injection H as H. apply append_inv_head in H. now apply encode_bytes_inj.
Qed.

Lemma search_request_unambiguous_witness : "coffee" = "coffee".
Proof.
  apply (search_request_unambiguous remote_empty_payload sample_manager
           "coffee" "coffee" []).
  reflexivity.
Defined.

(** X18.  The URL of [findPath] determines both endpoints: for a given
    [maxDepth] (printable, or absent), two calls send the same request
    only if they have the same [from] and the same [to].  No choice of
    entity names makes one pair pass for another. *)
Theorem path_request_unambiguous (remote : request -> net_result)
    (this : KnowledgeGraphManager) (from1 to1 from2 to2 : string)
    (maxDepth : value) (m : string) (log : list request) :
  ToString maxDepth = Returned m ->
  snd (findPath remote this (VStr from1) (VStr to1) maxDepth log)
  = snd (findPath remote this (VStr from2) (VStr to2) maxDepth log) ->
  from1 = from2 /\ to1 = to2.
Proof.
  intros Hm.
  pose proof (perform_plan remote this (FindPath (VStr from1) (VStr to1) maxDepth) log) as H1.
  pose proof (perform_plan remote this (FindPath (VStr from2) (VStr to2) maxDepth) log) as H2.
  cbn [perform prepared encodeURIComponent ToString obind] in H1, H2.
  rewrite H1, H2. clear H1 H2.
  destruct (truthy maxDepth); rewrite ?Hm; cbn [obind snd];
    intros H%app_inv_head; injection H as H; apply append_inv_head in H;
    apply split_at_ampersand in H as [Hf H]; try apply encode_bytes_safe;
    apply (append_inv_head "to=") in H.
  - apply split_at_ampersand in H as [Ht _]; try apply encode_bytes_safe.
    split; now apply encode_bytes_inj.
  - split; now apply encode_bytes_inj.
Qed.

Lemma path_request_unambiguous_witness : "A&to=B" = "A&to=B" /\ "C" = "C".
Proof.
  apply (path_request_unambiguous remote_empty_payload sample_manager
           "A&to=B" "C" "A&to=B" "C" (VNum (NInt 2)) "2" []); reflexivity.
Defined.

(** X19.  The URL of [getTemporalGraph] determines both dates in the
    same way. *)
Theorem temporal_request_unambiguous (remote : request -> net_result)
    (this : KnowledgeGraphManager) (start1 end1 start2 end2 : string)
    (log : list request) :
  snd (getTemporalGraph remote this (VStr start1) (VStr end1) log)
  = snd (getTemporalGraph remote this (VStr start2) (VStr end2) log) ->
  start1 = start2 /\ end1 = end2.
Proof.
  pose proof (perform_plan remote this
                (GetTemporalGraph (VStr start1) (VStr end1)) log) as H1.
  pose proof (perform_plan remote this
                (GetTemporalGraph (VStr start2) (VStr end2)) log) as H2.
  cbn [perform prepared encodeURIComponent ToString obind] in H1, H2.
  rewrite H1, H2. cbn [snd]. intros H%app_inv_head.
  injection H as H. apply append_inv_head in H.
  apply split_at_ampersand in H as [Hs H]; try apply encode_bytes_safe.
  apply (append_inv_head "endDate=") in H.
  split; now apply encode_bytes_inj.
Qed.

Lemma temporal_request_unambiguous_witness :
  "2023-01-01T00:00:00Z" = "2023-01-01T00:00:00Z"
  /\ "2023-12-31T23:59:59Z" = "2023-12-31T23:59:59Z".
Proof.
  apply (temporal_request_unambiguous remote_empty_payload sample_manager
           "2023-01-01T00:00:00Z" "2023-12-31T23:59:59Z"
           "2023-01-01T00:00:00Z" "2023-12-31T23:59:59Z" []); reflexivity.
Defined.

(** ** The registry and the switch *)

Lemma prepared_throws (this : KnowledgeGraphManager) (op : operation) (e : thrown) :
  prepared this op = Threw e -> e = cannot_convert.
Proof.
  destruct op; cbn [prepared]; try discriminate; unfold encodeURIComponent;
    repeat match goal with
           | |- context [truthy ?v] => destruct (truthy v)
           | |- context [ToString ?v] =>
               let E := fresh "E" in
               destruct (ToString v) eqn:E; cbn [obind];
               [|apply ToString_throws in E as ->]
           end;
    try discriminate; intros [= <-]; reflexivity.
Qed.

(** X21.  The catalog of the list-tools handler and the [switch] of the
    call-tool handler name the same tools: the [switch] falls through to
    its "Unknown tool" [throw], with nothing sent, exactly for the names
    that the catalog does not list. *)
Theorem registry_matches_switch (remote : request -> net_result)
    (mgr : KnowledgeGraphManager) (tool_name : string) (args : obj)
    (log : list request) :
  dispatch remote mgr tool_name args log
  = (Threw (Error ("Unknown tool: " +:+ tool_name)), log)
  <-> ~ In tool_name tool_names.
Proof.
  rewrite dispatch_routes, <- (operation_for_None tool_name args).
  destruct (operation_for tool_name args) as [op|]; [|tauto].
  split; [|discriminate]. unfold bind. rewrite perform_plan.
  destruct (prepared mgr op) as [r|e] eqn:Hp.
  - destruct (settled remote (unwrap op) r); intros [= _ Hl];
      apply (f_equal (@length request)) in Hl; rewrite length_app in Hl;
      cbn in Hl; lia.
  - apply prepared_throws in Hp as ->. discriminate.
Qed.

Lemma session_requests_configured_witness :
  req_headers (request_of sample_manager GET "/api/graph" None)
  = headers (api sample_manager)
  /\ req_baseURL (request_of sample_manager GET "/api/graph" None)
     = baseURL (api sample_manager)
  /\ exists k, sample_env !! "MEMORY_API_KEY" = Some k
               /\ headers (api sample_manager)
                  = [("Authorization", "Bearer " +:+ k);
                     ("Content-Type", "application/json")].
Proof.
  apply (session_requests_configured sample_env
           {| manager := sample_manager;
              server_name := "memory-mongo-server"; server_version := "1.0.0" |}
           [(remote_echo, "create_entities", Some [("entities", VArr [person1])]);
            (remote_rejecting "500" "Internal Server Error", "read_graph", Some [])]
           (request_of sample_manager GET "/api/graph" None)).
  - reflexivity.
  - right. left. reflexivity.
Defined.
